(** * Ticket orchestration engine: lifecycle, executor and connection multiplexer

    A shallow embedding of
      - [backend/app/services/websocket_manager.py]  (class [ConnectionManager]),
      - [backend/app/tasks/ai_orchestrator.py]       ([process_ticket_task] and helpers),
      - [backend/app/tasks/ticket_processor.py]      ([update_ticket_status_async]),
      - [backend/app/api/v1/endpoints/tickets.py]    ([reprocess_ticket]),
    followed by the properties of the specification that concern them. *)

From stdpp Require Import gmap strings list fin_maps.
From Stdlib Require Import ZArith.

Set Warnings "-register-all,-clear-no-such-hyp".

Local Open Scope Z_scope.
Local Open Scope string_scope.
Local Open Scope list_scope.

(** ** Python values *)

Module Py.

(** JSON-like values carried by message and payload dictionaries.  A [dict]
    literal of the source is an association list in source order; the source
    never repeats a key in a literal. *)
Inductive value : Type :=
| VNone
| VBool (b : bool)
| VInt (n : Z)
| VStr (s : string)
| VDict (d : list (string * value)).

Abbreviation dict := (list (string * value)).

(** [d.get(k, default)] *)
Fixpoint get_default (d : dict) (k : string) (default : value) : value :=
  match d with
  | [] => default
  | (k', v) :: d' => if String.eqb k' k then v else get_default d' k default
  end.

(** [d.get(k)] *)
Definition get (d : dict) (k : string) : value := get_default d k VNone.

(** Truth value of [v] in an [if v:] test. *)
Definition truthy (v : value) : bool :=
  match v with
  | VNone => false
  | VBool b => b
  | VInt n => negb (Z.eqb n 0)
  | VStr s => negb (String.eqb s "")
  | VDict d => match d with [] => false | _ => true end
  end.

(** [v == "literal"] for a string literal. *)
Definition eq_str (v : value) (s : string) : bool :=
  match v with
  | VStr s' => String.eqb s' s
  | _ => false
  end.

(** Exceptions: the class name and the text [str(e)]. *)
Record exn : Type := Exn { exn_class : string; exn_text : string }.

Definition str_exn (e : exn) : string := exn_text e.

Definition ValueError (text : string) : exn := Exn "ValueError" text.
Definition KeyError (text : string) : exn := Exn "KeyError" text.
Definition HTTPException (text : string) : exn := Exn "HTTPException" text.

Inductive outcome (A : Type) : Type :=
| Returned (a : A)
| Raised (e : exn).

Arguments Returned {A} a.
Arguments Raised {A} e.

(** Computations over a state [St] that return or raise. *)
Definition Aio (St A : Type) : Type := St -> outcome A * St.

Definition ret {St A} (a : A) : Aio St A := fun s => (Returned a, s).

Definition raise {St A} (e : exn) : Aio St A := fun s => (Raised e, s).

Definition bind {St A B} (c : Aio St A) (k : A -> Aio St B) : Aio St B :=
  fun s =>
    match c s with
    | (Returned a, s') => k a s'
    | (Raised e, s') => (Raised e, s')
    end.

(** [try: c  except Exception as e: h e] *)
Definition try_except {St A} (c : Aio St A) (h : exn -> Aio St A) : Aio St A :=
  fun s =>
    match c s with
    | (Returned a, s') => (Returned a, s')
    | (Raised e, s') => h e s'
    end.

Definition read {St} : Aio St St := fun s => (Returned s, s).

Definition write {St} (s : St) : Aio St unit := fun _ => (Returned tt, s).

(** [for x in xs: body x] *)
Fixpoint for_each {St X} (xs : list X) (body : X -> Aio St unit) : Aio St unit :=
  match xs with
  | [] => ret tt
  | x :: xs' => bind (body x) (fun _ => for_each xs' body)
  end.

(** A [for] loop that updates a local variable [acc]. *)
Fixpoint for_acc {St X B} (xs : list X) (acc : B) (body : X -> B -> Aio St B) : Aio St B :=
  match xs with
  | [] => ret acc
  | x :: xs' => bind (body x acc) (fun acc' => for_acc xs' acc' body)
  end.

(** [d[k]] on a dictionary: [KeyError] when the key is absent. *)
Definition getitem {St K V} `{Countable K} (d : gmap K V) (k : K) : Aio St V :=
  match d !! k with
  | Some v => ret v
  | None => raise (KeyError "")
  end.

Definition exec {St A} (c : Aio St A) (s : St) : St := snd (c s).
Definition result {St A} (c : Aio St A) (s : St) : outcome A := fst (c s).

End Py.

Import Py.

Notation "'let*' x ':=' c 'in' k" := (bind c (fun x => k))
  (at level 10, x name, c at level 100, k at level 200, only parsing).
Notation "c ;;; k" := (bind c (fun _ => k))
  (at level 100, k at level 200, right associativity, only parsing).

(** ** The connection multiplexer ([websocket_manager.py]) *)

Module WS.

(** A channel handle: the identity of a [WebSocket] object. *)
Abbreviation WebSocket := nat.

(** [ConnectionManager.__init__]'s two dictionaries: user id -> set of
    channels, and channel -> user id. *)
Record ConnectionManager : Type := {
  active_connections : gmap Z (gset WebSocket);
  websocket_users : gmap WebSocket Z
}.

(** The manager together with the texts the transport has taken, oldest
    first: [wire] records every [websocket.send_text] that returned. *)
Record Net : Type := {
  manager : ConnectionManager;
  wire : list (WebSocket * dict)
}.

(** [ConnectionManager()] *)
Definition init : ConnectionManager :=
  {| active_connections := ∅; websocket_users := ∅ |}.

Definition self : Aio Net ConnectionManager :=
  fun s => (Returned (manager s), s).

Definition set_active_connections (ac : gmap Z (gset WebSocket)) : Aio Net unit :=
  fun s =>
    (Returned tt,
     {| manager := {| active_connections := ac;
                      websocket_users := websocket_users (manager s) |};
        wire := wire s |}).

Definition set_websocket_users (wu : gmap WebSocket Z) : Aio Net unit :=
  fun s =>
    (Returned tt,
     {| manager := {| active_connections := active_connections (manager s);
                      websocket_users := wu |};
        wire := wire s |}).

(** [del self.active_connections[user_id]]: [KeyError] when absent. *)
Definition del_active_connections (user_id : Z) : Aio Net unit :=
  let* m := self in
  match active_connections m !! user_id with
  | Some _ => set_active_connections (delete user_id (active_connections m))
  | None => raise (KeyError "user_id")
  end.

(** [del self.websocket_users[websocket]]: [KeyError] when absent. *)
Definition del_websocket_users (websocket : WebSocket) : Aio Net unit :=
  let* m := self in
  match websocket_users m !! websocket with
  | Some _ => set_websocket_users (delete websocket (websocket_users m))
  | None => raise (KeyError "websocket")
  end.

(** [json.dumps(message)]: every [value] serialises, the text is identified
    with the dictionary it encodes. *)
Definition json_dumps (message : dict) : dict := message.

(** [user_id] in an [if user_id:] test, where [user_id] is an [int] or [None]. *)
Definition truthy_id (user_id : option Z) : bool :=
  match user_id with
  | Some u => truthy (VInt u)
  | None => false
  end.

Section Transport.

(** The transport decides whether a handshake or a send on a channel raises. *)
Variable accept_fails : WebSocket -> bool.
Variable send_fails : WebSocket -> bool.

(** [await websocket.accept()] *)
Definition accept (websocket : WebSocket) : Aio Net unit :=
  if accept_fails websocket then raise (Exn "RuntimeError" "accept") else ret tt.

(** [await websocket.send_text(text)] *)
Definition send_text (websocket : WebSocket) (text : dict) : Aio Net unit :=
  fun s =>
    if send_fails websocket
    then (Raised (Exn "WebSocketDisconnect" "send"), s)
    else (Returned tt, {| manager := manager s; wire := (wire s ++ [(websocket, text)])%list |}).

Definition disconnect (websocket : WebSocket) : Aio Net unit :=
  let* m := self in
  if decide (is_Some (websocket_users m !! websocket)) then
    let* user_id := getitem (websocket_users m) websocket in
    (if decide (is_Some (active_connections m !! user_id)) then
       let* websockets := getitem (active_connections m) user_id in
       (* .discard(websocket) updates the set held by the dictionary *)
       set_active_connections
         (<[user_id := websockets ∖ {[websocket]}]> (active_connections m)) ;;;
       let* m := self in
       let* websockets := getitem (active_connections m) user_id in
       if decide (websockets = ∅)
       then del_active_connections user_id
       else ret tt
     else ret tt) ;;;
    del_websocket_users websocket
  else ret tt.

Definition send_personal_message (message : dict) (websocket : WebSocket) : Aio Net unit :=
  try_except
    (send_text websocket (json_dumps message))
    (fun e => disconnect websocket).

Definition connect (websocket : WebSocket) (user_id : Z) : Aio Net unit :=
  accept websocket ;;;
  let* m := self in
  (if decide (is_Some (active_connections m !! user_id))
   then ret tt
   else set_active_connections (<[user_id := ∅]> (active_connections m))) ;;;
  let* m := self in
  let* websockets := getitem (active_connections m) user_id in
  set_active_connections
    (<[user_id := websockets ∪ {[websocket]}]> (active_connections m)) ;;;
  let* m := self in
  set_websocket_users (<[websocket := user_id]> (websocket_users m)) ;;;
  send_personal_message
    [("type", VStr "connection_confirmed");
     ("message", VStr "WebSocket connection established");
     ("user_id", VInt user_id)]
    websocket.

(** The body shared by the two sending loops:
    [try: await websocket.send_text(json.dumps(message))]
    [except Exception: disconnected_websockets.append(websocket)] *)
Definition send_or_mark (message : dict) (websocket : WebSocket)
    (disconnected_websockets : list WebSocket) : Aio Net (list WebSocket) :=
  try_except
    (send_text websocket (json_dumps message) ;;; ret disconnected_websockets)
    (fun e => ret (disconnected_websockets ++ [websocket])%list).

(** The loops run over [elements] of a copy of the set; Python fixes no
    order on a set either. *)
Definition send_message_to_user (message : dict) (user_id : Z) : Aio Net unit :=
  let* m := self in
  if decide (is_Some (active_connections m !! user_id)) then
    let* websockets := getitem (active_connections m) user_id in
    let* disconnected_websockets := for_acc (elements websockets) [] (send_or_mark message) in
    for_each disconnected_websockets disconnect
  else ret tt.

Definition broadcast_to_all (message : dict) : Aio Net unit :=
  let* m := self in
  let* disconnected_websockets := for_acc (map_to_list (active_connections m)) []
      (fun item disconnected_websockets =>
         for_acc (elements (snd item)) disconnected_websockets (send_or_mark message)) in
  for_each disconnected_websockets disconnect.

Definition send_ticket_update (ticket_id : Z) (update_data : dict)
    (user_id : option Z) : Aio Net unit :=
  let message :=
    [("type", VStr "ticket_update");
     ("ticket_id", VInt ticket_id);
     ("data", VDict update_data);
     ("timestamp", get update_data "timestamp")] in
  match user_id with
  | Some u => if truthy (VInt u)
              then send_message_to_user message u
              else broadcast_to_all message
  | None => broadcast_to_all message
  end.

Definition send_processing_status (ticket_id : Z) (status : string) (user_id : Z)
    (details : option dict) : Aio Net unit :=
  let has_details := match details with Some (_ :: _) => true | _ => false end in
  let message :=
    [("type", VStr "processing_status");
     ("ticket_id", VInt ticket_id);
     ("status", VStr status);
     ("details", VDict (if has_details then default [] details else []));
     ("timestamp", if has_details then get (default [] details) "timestamp" else VNone)] in
  send_message_to_user message user_id.

Definition send_error_notification (ticket_id : Z) (error_message : string)
    (user_id : Z) : Aio Net unit :=
  let message :=
    [("type", VStr "error_notification");
     ("ticket_id", VInt ticket_id);
     ("error", VStr error_message);
     ("timestamp", VNone)] in
  send_message_to_user message user_id.

Definition handle_client_message (websocket : WebSocket) (message : dict) : Aio Net unit :=
  let message_type := get message "type" in
  if eq_str message_type "ping" then
    send_personal_message
      [("type", VStr "pong"); ("timestamp", get message "timestamp")] websocket
  else if eq_str message_type "subscribe_ticket" then
    let ticket_id := get message "ticket_id" in
    let* m := self in
    let user_id := websocket_users m !! websocket in
    if truthy ticket_id && truthy_id user_id then
      send_personal_message
        [("type", VStr "subscription_confirmed"); ("ticket_id", ticket_id)] websocket
    else ret tt
  else
    (* logger.warning *)
    ret tt.

End Transport.

(** [sum(len(websockets) for websockets in self.active_connections.values())] *)
Definition get_connection_count (m : ConnectionManager) : nat :=
  sum_list (map (fun item => size (snd item)) (map_to_list (active_connections m))).

(** [list(self.active_connections.keys())] *)
Definition get_connected_users (m : ConnectionManager) : list Z :=
  map fst (map_to_list (active_connections m)).

End WS.

(** ** Tickets, audit log and the persistent store ([models/]) *)

Module Model.

(** [class TicketStatus(str, enum.Enum)] *)
Inductive TicketStatus : Type :=
| PENDING | PROCESSING | COMPLETED | FAILED | CANCELLED.

Global Instance TicketStatus_eq_dec : EqDecision TicketStatus.
Proof. solve_decision. Defined.

(** The string each member carries. *)
Definition status_value (s : TicketStatus) : string :=
  match s with
  | PENDING => "pending"
  | PROCESSING => "processing"
  | COMPLETED => "completed"
  | FAILED => "failed"
  | CANCELLED => "cancelled"
  end.

(** [TicketStatus(text)]: the member with that value, if any. *)
Definition TicketStatus_of (text : string) : option TicketStatus :=
  if String.eqb text "pending" then Some PENDING
  else if String.eqb text "processing" then Some PROCESSING
  else if String.eqb text "completed" then Some COMPLETED
  else if String.eqb text "failed" then Some FAILED
  else if String.eqb text "cancelled" then Some CANCELLED
  else None.

(** [class TaskType(str, enum.Enum)]: the column is compared member by
    member in the executor, so a ticket carries the member's string. *)
Definition PR_REVIEW : string := "pr_review".
Definition DOC_ANALYSIS : string := "doc_analysis".
Definition PAPER_WRITING : string := "paper_writing".
Definition SNOWFLAKE_QUERY : string := "snowflake_query".
Definition CUSTOM : string := "custom".

Record TicketAttachment : Type := {
  filename : string;
  file_path : string;
  file_size : Z;
  content_type : string
}.

(** A row of [tickets]; timestamps are instants on the clock. *)
Record Ticket : Type := {
  id : Z;
  title : string;
  description : string;
  task_type : string;
  priority : string;
  status : TicketStatus;
  created_by : Z;
  assigned_to : option Z;
  created_at : Z;
  updated_at : Z;
  completed_at : option Z;
  task_data : dict;
  result_data : dict;
  error_message : option string;
  ai_model_used : option string;
  tokens_used : value;
  attachments : list TicketAttachment
}.

Definition set_status (v : TicketStatus) (t : Ticket) : Ticket :=
  {| id := id t; title := title t; description := description t;
     task_type := task_type t; priority := priority t; status := v;
     created_by := created_by t; assigned_to := assigned_to t;
     created_at := created_at t; updated_at := updated_at t;
     completed_at := completed_at t; task_data := task_data t;
     result_data := result_data t; error_message := error_message t;
     ai_model_used := ai_model_used t; tokens_used := tokens_used t;
     attachments := attachments t |}.

Definition set_updated_at (v : Z) (t : Ticket) : Ticket :=
  {| id := id t; title := title t; description := description t;
     task_type := task_type t; priority := priority t; status := status t;
     created_by := created_by t; assigned_to := assigned_to t;
     created_at := created_at t; updated_at := v;
     completed_at := completed_at t; task_data := task_data t;
     result_data := result_data t; error_message := error_message t;
     ai_model_used := ai_model_used t; tokens_used := tokens_used t;
     attachments := attachments t |}.

Definition set_completed_at (v : option Z) (t : Ticket) : Ticket :=
  {| id := id t; title := title t; description := description t;
     task_type := task_type t; priority := priority t; status := status t;
     created_by := created_by t; assigned_to := assigned_to t;
     created_at := created_at t; updated_at := updated_at t;
     completed_at := v; task_data := task_data t;
     result_data := result_data t; error_message := error_message t;
     ai_model_used := ai_model_used t; tokens_used := tokens_used t;
     attachments := attachments t |}.

Definition set_result_data (v : dict) (t : Ticket) : Ticket :=
  {| id := id t; title := title t; description := description t;
     task_type := task_type t; priority := priority t; status := status t;
     created_by := created_by t; assigned_to := assigned_to t;
     created_at := created_at t; updated_at := updated_at t;
     completed_at := completed_at t; task_data := task_data t;
     result_data := v; error_message := error_message t;
     ai_model_used := ai_model_used t; tokens_used := tokens_used t;
     attachments := attachments t |}.

Definition set_error_message (v : option string) (t : Ticket) : Ticket :=
  {| id := id t; title := title t; description := description t;
     task_type := task_type t; priority := priority t; status := status t;
     created_by := created_by t; assigned_to := assigned_to t;
     created_at := created_at t; updated_at := updated_at t;
     completed_at := completed_at t; task_data := task_data t;
     result_data := result_data t; error_message := v;
     ai_model_used := ai_model_used t; tokens_used := tokens_used t;
     attachments := attachments t |}.

Definition set_ai_model_used (v : option string) (t : Ticket) : Ticket :=
  {| id := id t; title := title t; description := description t;
     task_type := task_type t; priority := priority t; status := status t;
     created_by := created_by t; assigned_to := assigned_to t;
     created_at := created_at t; updated_at := updated_at t;
     completed_at := completed_at t; task_data := task_data t;
     result_data := result_data t; error_message := error_message t;
     ai_model_used := v; tokens_used := tokens_used t;
     attachments := attachments t |}.

Definition set_tokens_used (v : value) (t : Ticket) : Ticket :=
  {| id := id t; title := title t; description := description t;
     task_type := task_type t; priority := priority t; status := status t;
     created_by := created_by t; assigned_to := assigned_to t;
     created_at := created_at t; updated_at := updated_at t;
     completed_at := completed_at t; task_data := task_data t;
     result_data := result_data t; error_message := error_message t;
     ai_model_used := ai_model_used t; tokens_used := v;
     attachments := attachments t |}.

(** A row of [audit_logs] as [log_audit_event] fills it. *)
Record AuditLog : Type := {
  action : string;
  entity_type : string;
  entity_id : Z;
  audit_description : string;
  metadata : dict;
  timestamp : Z
}.

(** The caller of an endpoint. *)
Record User : Type := {
  user_id : Z;
  role : string
}.

(** Everything a job or a request can touch: the two tables, the job queue
    ([process_ticket_task.delay]), the clock behind [datetime.utcnow()], and
    the process-wide connection manager with its channels. *)
Record World : Type := {
  tickets : gmap Z Ticket;
  audit_logs : list AuditLog;
  celery_queue : list Z;
  clock : Z;
  net : WS.Net
}.

Definition set_tickets (v : gmap Z Ticket) (w : World) : World :=
  {| tickets := v; audit_logs := audit_logs w; celery_queue := celery_queue w;
     clock := clock w; net := net w |}.

Definition set_audit_logs (v : list AuditLog) (w : World) : World :=
  {| tickets := tickets w; audit_logs := v; celery_queue := celery_queue w;
     clock := clock w; net := net w |}.

Definition set_celery_queue (v : list Z) (w : World) : World :=
  {| tickets := tickets w; audit_logs := audit_logs w; celery_queue := v;
     clock := clock w; net := net w |}.

(** [await db.get(Ticket, ticket_id)] *)
Definition db_get (ticket_id : Z) : Aio World (option Ticket) :=
  fun w => (Returned (tickets w !! ticket_id), w).

(** An assignment [ticket.field = v] on the object of the session.  Every
    run of assignments in the source is followed by [await db.commit()] with
    nothing that can raise in between, so the row is written at once. *)
Definition assign (ticket_id : Z) (f : Ticket -> Ticket) : Aio World unit :=
  fun w => (Returned tt, set_tickets (alter f ticket_id (tickets w)) w).

(** [await db.commit()] *)
Definition commit : Aio World unit := ret tt.

(** [datetime.utcnow()] *)
Definition utcnow : Aio World Z := fun w => (Returned (clock w), w).

(** [process_ticket_task.delay(ticket_id)] *)
Definition delay (ticket_id : Z) : Aio World unit :=
  fun w => (Returned tt, set_celery_queue (celery_queue w ++ [ticket_id])%list w).

(** The result of an external call, which touches no state of ours. *)
Definition call {A} (o : outcome A) : Aio World A := fun w => (o, w).

End Model.

(** ** The executor ([tasks/ai_orchestrator.py]) *)

Module Orchestrator.
Import Model.

(** A piece of an f-string: literal text or an interpolated value. *)
Inductive fragment : Type :=
| Lit (text : string)
| Interp (v : value).

(** What [AzureAIClient.get_completion] returns: the text and, when the
    provider reports it, [usage.total_tokens]. *)
Record Completion : Type := {
  content : string;
  usage : option Z
}.

(** The fields of [GitHubClient.get_pr_data]'s dictionary that are read. *)
Record PRData : Type := {
  pr_title : value;
  pr_description : value;
  pr_diff : value
}.

(** The collaborators behind the handlers.  Each call returns or raises; none
    of them touches the store, and constructing a client is taken to succeed.
    [fstring] renders an f-string; the literal pieces of the prompts are
    given with their line layout flattened to single spaces. *)
Record Capabilities : Type := {
  fstring : list fragment -> string;
  model_name : string;
  get_completion : string -> outcome Completion;
  get_pr_data : value -> outcome PRData;
  extract_text : string -> outcome string;
  execute_query : value -> outcome value
}.

Section Executor.

Variable caps : Capabilities.

(** [response.usage.total_tokens if response.usage else 0] *)
Definition total_tokens (response : Completion) : value :=
  match usage response with
  | Some n => VInt n
  | None => VInt 0
  end.

Definition log_audit_event (action entity_type : string) (entity_id : Z)
    (description : string) (metadata : dict) : Aio World unit :=
  let* now := utcnow in
  let audit_log :=
    {| action := action; entity_type := entity_type; entity_id := entity_id;
       audit_description := description; metadata := metadata;
       timestamp := now |} in
  (fun w => (Returned tt, set_audit_logs (audit_logs w ++ [audit_log])%list w)) ;;;
  commit.

Definition process_pr_review (ticket : Ticket) : Aio World dict :=
  let task_data := task_data ticket in
  let pr_url := get task_data "pr_url" in
  if negb (truthy pr_url) then
    raise (ValueError "PR URL is required for PR review task")
  else
    let* pr_data := call (get_pr_data caps pr_url) in
    let prompt := fstring caps
      [Lit "Please review the following GitHub Pull Request: Title: ";
       Interp (pr_title pr_data);
       Lit " Description: "; Interp (pr_description pr_data);
       Lit " Changes: "; Interp (pr_diff pr_data);
       Lit " Please analyze for: 1. Code quality and best practices 2. Potential bugs or security issues 3. Performance implications 4. Suggestions for improvement Additional context: ";
       Interp (get_default task_data "additional_instructions" (VStr ""))] in
    let* response := call (get_completion caps prompt) in
    ret [("pr_url", pr_url);
         ("review_analysis", VStr (content response));
         ("tokens_used", total_tokens response);
         ("model_used", VStr (model_name caps))].

(** [for attachment in ticket.attachments: ...extract_text...append] *)
Definition extract_all (atts : list TicketAttachment) : Aio World (list (string * string)) :=
  for_acc atts []
    (fun attachment extracted_content =>
       let* content := call (extract_text caps (file_path attachment)) in
       ret (extracted_content ++ [(filename attachment, content)])%list).

Definition process_doc_analysis (ticket : Ticket) : Aio World dict :=
  let task_data := task_data ticket in
  let* extracted_content := extract_all (attachments ticket) in
  let documents_text :=
    VStr (String.concat (String (Ascii.ascii_of_nat 10) (String (Ascii.ascii_of_nat 10) ""))
            (map (fun doc => fstring caps
                               [Lit "Document: "; Interp (VStr (fst doc));
                                Lit (String (Ascii.ascii_of_nat 10) "");
                                Interp (VStr (snd doc))])
                 extracted_content)) in
  let prompt := fstring caps
    [Lit "Please analyze the following documents: "; Interp documents_text;
     Lit " Analysis type: ";
     Interp (get_default task_data "analysis_type" (VStr "general"));
     Lit " Instructions: ";
     Interp (get_default task_data "instructions"
               (VStr "Provide a comprehensive analysis"))] in
  let* response := call (get_completion caps prompt) in
  ret [("documents_analyzed", VInt (Z.of_nat (length extracted_content)));
       ("analysis", VStr (content response));
       ("tokens_used", total_tokens response);
       ("model_used", VStr (model_name caps))].

Definition process_paper_writing (ticket : Ticket) : Aio World dict :=
  let task_data := task_data ticket in
  let prompt := fstring caps
    [Lit "Please write a ";
     Interp (get_default task_data "paper_type" (VStr "report"));
     Lit " on the following topic: Topic: "; Interp (get task_data "topic");
     Lit " Requirements: "; Interp (get_default task_data "requirements" (VStr ""));
     Lit " Target audience: ";
     Interp (get_default task_data "target_audience" (VStr "General"));
     Lit " Length: "; Interp (get_default task_data "length" (VStr "Medium"));
     Lit " Additional instructions: ";
     Interp (get_default task_data "instructions" (VStr ""))] in
  let* response := call (get_completion caps prompt) in
  ret [("paper_content", VStr (content response));
       ("tokens_used", total_tokens response);
       ("model_used", VStr (model_name caps))].

Definition process_snowflake_query (ticket : Ticket) : Aio World dict :=
  let task_data := task_data ticket in
  let query_request := get task_data "query_request" in
  if negb (truthy query_request) then
    raise (ValueError "Query request is required for Snowflake task")
  else
    let* result := call (execute_query caps query_request) in
    ret [("query_request", query_request);
         ("query_result", result);
         ("tokens_used", VInt 0);
         ("model_used", VStr "MCP Snowflake")].

Definition process_custom_task (ticket : Ticket) : Aio World dict :=
  let task_data := task_data ticket in
  let prompt := fstring caps
    [Lit "Custom task request: Task description: ";
     Interp (get task_data "task_description");
     Lit " Instructions: "; Interp (get_default task_data "instructions" (VStr ""));
     Lit " Context: "; Interp (get_default task_data "context" (VStr ""))] in
  let* response := call (get_completion caps prompt) in
  ret [("task_result", VStr (content response));
       ("tokens_used", total_tokens response);
       ("model_used", VStr (model_name caps))].

(** The [if]/[elif] chain on [ticket.task_type]. *)
Definition dispatch (ticket : Ticket) : Aio World dict :=
  if String.eqb (task_type ticket) PR_REVIEW then process_pr_review ticket
  else if String.eqb (task_type ticket) DOC_ANALYSIS then process_doc_analysis ticket
  else if String.eqb (task_type ticket) PAPER_WRITING then process_paper_writing ticket
  else if String.eqb (task_type ticket) SNOWFLAKE_QUERY then process_snowflake_query ticket
  else if String.eqb (task_type ticket) CUSTOM then process_custom_task ticket
  else raise (ValueError (fstring caps [Lit "Unknown task type: ";
                                        Interp (VStr (task_type ticket))])).

(** [celery_task_id] is [task_instance.request.id]. *)
Definition process_ticket_async (ticket_id : Z) (celery_task_id : string)
    : Aio World dict :=
  let* found := db_get ticket_id in
  match found with
  | None =>
      raise (ValueError (fstring caps [Lit "Ticket "; Interp (VInt ticket_id);
                                       Lit " not found"]))
  | Some ticket =>
      assign ticket_id (set_status PROCESSING) ;;;
      commit ;;;
      log_audit_event "ai_processing_started" "ticket" ticket_id
        (fstring caps [Lit "AI processing started for ";
                       Interp (VStr (task_type ticket)); Lit " task"])
        [("celery_task_id", VStr celery_task_id)] ;;;
      try_except
        (let* result := dispatch (set_status PROCESSING ticket) in
         assign ticket_id (set_result_data result) ;;;
         assign ticket_id (set_status COMPLETED) ;;;
         let* now := utcnow in
         assign ticket_id (set_completed_at (Some now)) ;;;
         assign ticket_id (set_ai_model_used (Some (model_name caps))) ;;;
         let tokens := get_default result "tokens_used" (VInt 0) in
         assign ticket_id (set_tokens_used tokens) ;;;
         commit ;;;
         log_audit_event "ai_processing_completed" "ticket" ticket_id
           "AI processing completed successfully"
           [("tokens_used", tokens)] ;;;
         ret [("status", VStr "completed");
              ("ticket_id", VInt ticket_id);
              ("result", VDict result)])
        (fun e =>
           assign ticket_id (set_status FAILED) ;;;
           assign ticket_id (set_error_message (Some (str_exn e))) ;;;
           commit ;;;
           log_audit_event "ai_processing_failed" "ticket" ticket_id
             (fstring caps [Lit "AI processing failed: "; Interp (VStr (str_exn e))])
             [("error", VStr (str_exn e))] ;;;
           raise e)
  end.

Definition mark_ticket_failed (ticket_id : Z) (error_message : string)
    : Aio World unit :=
  let* found := db_get ticket_id in
  match found with
  | Some _ =>
      assign ticket_id (set_status FAILED) ;;;
      assign ticket_id (set_error_message (Some error_message)) ;;;
      commit
  | None => ret tt
  end.

Definition process_ticket_task (ticket_id : Z) (celery_task_id : string)
    : Aio World dict :=
  try_except
    (process_ticket_async ticket_id celery_task_id)
    (fun e =>
       mark_ticket_failed ticket_id (str_exn e) ;;;
       raise e).

End Executor.

End Orchestrator.

(** ** The status task ([tasks/ticket_processor.py]) *)

Module TicketProcessor.
Import Model.

Section Task.

Variable fstring : list Orchestrator.fragment -> string.

Definition update_ticket_status_async (ticket_id : Z) (status : string)
    (result_data : option dict) : Aio World dict :=
  let* found := db_get ticket_id in
  match found with
  | None =>
      raise (ValueError (fstring [Orchestrator.Lit "Ticket ";
                                  Orchestrator.Interp (VInt ticket_id);
                                  Orchestrator.Lit " not found"]))
  | Some _ =>
      match TicketStatus_of status with
      | None =>
          raise (ValueError (fstring [Orchestrator.Interp (VStr status);
                                      Orchestrator.Lit " is not a valid TicketStatus"]))
      | Some member =>
          assign ticket_id (set_status member) ;;;
          let* updated := utcnow in
          assign ticket_id (set_updated_at updated) ;;;
          (* [if result_data:] holds for a non-empty dictionary *)
          (match result_data with
           | Some (item :: rest) => assign ticket_id (set_result_data (item :: rest))
           | _ => ret tt
           end) ;;;
          (* a [str] equals the member exactly when it is the member's value *)
          (if String.eqb status (status_value COMPLETED) then
             let* now := utcnow in
             assign ticket_id (set_completed_at (Some now))
           else ret tt) ;;;
          commit ;;;
          (* [ticket.updated_at.isoformat()]: the instant stands for its text *)
          ret [("ticket_id", VInt ticket_id);
               ("status", VStr status);
               ("updated_at", VInt updated)]
      end
  end.

(** [update_ticket_status_task] runs the coroutine above to completion. *)
Definition update_ticket_status_task (ticket_id : Z) (status : string)
    (result_data : option dict) : Aio World dict :=
  update_ticket_status_async ticket_id status result_data.

End Task.

End TicketProcessor.

(** ** The reprocess endpoint ([api/v1/endpoints/tickets.py]) *)

Module Endpoints.
Import Model.

Definition reprocess_ticket (ticket_id : Z) (current_user : User) : Aio World dict :=
  let* found := db_get ticket_id in
  match found with
  | None => raise (HTTPException "Ticket not found")
  | Some ticket =>
      if negb (String.eqb (role current_user) "admin")
         && negb (Z.eqb (created_by ticket) (user_id current_user))
      then raise (HTTPException "Not authorized to reprocess this ticket")
      else
        (* "pending" is the value of TicketStatus.PENDING *)
        assign ticket_id (set_status PENDING) ;;;
        assign ticket_id (set_error_message None) ;;;
        assign ticket_id (set_result_data []) ;;;
        let* now := utcnow in
        assign ticket_id (set_updated_at now) ;;;
        commit ;;;
        delay ticket_id ;;;
        ret [("message", VStr "Ticket queued for reprocessing")]
  end.

End Endpoints.

(** ** Notions used to state the properties *)

Module Notions.
Import WS Model.

(** The channels registered for an identity (none when it has no entry). *)
Definition channels (m : ConnectionManager) (user_id : Z) : gset WebSocket :=
  default ∅ (active_connections m !! user_id).

(** The two dictionaries agree: a channel is mapped to [u] exactly when it
    belongs to the set of [u]. *)
Definition consistent (m : ConnectionManager) : Prop :=
  forall websocket u,
    websocket_users m !! websocket = Some u <->
    exists websockets,
      active_connections m !! u = Some websockets /\ websocket ∈ websockets.

(** No identity is mapped to an empty set. *)
Definition no_empty_entry (m : ConnectionManager) : Prop :=
  forall u, active_connections m !! u <> Some ∅.

(** What [disconnect] leaves of the manager. *)
Definition unregister (websocket : WebSocket) (m : ConnectionManager)
    : ConnectionManager :=
  match websocket_users m !! websocket with
  | None => m
  | Some u =>
      {| active_connections :=
           match active_connections m !! u with
           | Some websockets =>
               if decide (websockets ∖ {[websocket]} = ∅)
               then delete u (active_connections m)
               else <[u := websockets ∖ {[websocket]}]> (active_connections m)
           | None => active_connections m
           end;
         websocket_users := delete websocket (websocket_users m) |}
  end.

(** What the registration steps of [connect] make of the manager. *)
Definition register (websocket : WebSocket) (u : Z) (m : ConnectionManager)
    : ConnectionManager :=
  {| active_connections :=
       <[u := channels m u ∪ {[websocket]}]> (active_connections m);
     websocket_users := <[websocket := u]> (websocket_users m) |}.

(** The message [connect] sends on the new channel. *)
Definition connection_confirmed (u : Z) : dict :=
  [("type", VStr "connection_confirmed");
   ("message", VStr "WebSocket connection established");
   ("user_id", VInt u)].

(** The message [send_ticket_update] builds. *)
Definition ticket_update (ticket_id : Z) (update_data : dict) : dict :=
  [("type", VStr "ticket_update");
   ("ticket_id", VInt ticket_id);
   ("data", VDict update_data);
   ("timestamp", get update_data "timestamp")].

(** The replies of [handle_client_message]. *)
Definition pong (message : dict) : dict :=
  [("type", VStr "pong"); ("timestamp", get message "timestamp")].

Definition subscription_confirmed (message : dict) : dict :=
  [("type", VStr "subscription_confirmed"); ("ticket_id", get message "ticket_id")].

(** The operations of the multiplexer, each with the behaviour of the
    transport during the call. *)
Inductive operation : Type :=
| Connect (accept_fails send_fails : WebSocket -> bool) (websocket : WebSocket) (user_id : Z)
| Disconnect (websocket : WebSocket)
| SendPersonal (send_fails : WebSocket -> bool) (message : dict) (websocket : WebSocket)
| SendToUser (send_fails : WebSocket -> bool) (message : dict) (user_id : Z)
| Broadcast (send_fails : WebSocket -> bool) (message : dict)
| TicketUpdate (send_fails : WebSocket -> bool) (ticket_id : Z) (update_data : dict)
    (user_id : option Z)
| ProcessingStatus (send_fails : WebSocket -> bool) (ticket_id : Z) (status : string)
    (user_id : Z) (details : option dict)
| ErrorNotification (send_fails : WebSocket -> bool) (ticket_id : Z)
    (error_message : string) (user_id : Z)
| ClientMessage (send_fails : WebSocket -> bool) (websocket : WebSocket) (message : dict).

Definition perform (o : operation) : Aio Net unit :=
  match o with
  | Connect af sf websocket u => connect af sf websocket u
  | Disconnect websocket => disconnect websocket
  | SendPersonal sf message websocket => send_personal_message sf message websocket
  | SendToUser sf message u => send_message_to_user sf message u
  | Broadcast sf message => broadcast_to_all sf message
  | TicketUpdate sf ticket_id update_data u => send_ticket_update sf ticket_id update_data u
  | ProcessingStatus sf ticket_id st u details =>
      send_processing_status sf ticket_id st u details
  | ErrorNotification sf ticket_id text u => send_error_notification sf ticket_id text u
  | ClientMessage sf websocket message => handle_client_message sf websocket message
  end.

(** A sequence of calls; a call that raises leaves what it had done. *)
Definition run_operations (ops : list operation) (s : Net) : Net :=
  foldl (fun s o => exec (perform o) s) s ops.

(** Every [connect] of the sequence is for a channel that is, at that
    moment, unregistered or registered under the same identity. *)
Fixpoint connects_unregistered (ops : list operation) (s : Net) : Prop :=
  match ops with
  | [] => True
  | o :: ops' =>
      match o with
      | Connect _ _ websocket u =>
          websocket_users (manager s) !! websocket = None \/
          websocket_users (manager s) !! websocket = Some u
      | _ => True
      end /\ connects_unregistered ops' (exec (perform o) s)
  end.

(** A freshly started process: no connection, nothing sent. *)
Definition start : Net := {| manager := init; wire := [] |}.

(** A computation that only consults the collaborators: it has one outcome
    and leaves every state as it found it. *)
Definition stateless {St A} (c : Aio St A) : Prop :=
  exists o, forall s, c s = (o, s).

(** The audit entries of a job run, and what the run writes to the ticket. *)
Definition started_entry (caps : Orchestrator.Capabilities) (t : Ticket)
    (ticket_id : Z) (celery_task_id : string) (now : Z) : AuditLog :=
  {| action := "ai_processing_started"; entity_type := "ticket";
     entity_id := ticket_id;
     audit_description :=
       Orchestrator.fstring caps
         [Orchestrator.Lit "AI processing started for ";
          Orchestrator.Interp (VStr (task_type t)); Orchestrator.Lit " task"];
     metadata := [("celery_task_id", VStr celery_task_id)];
     timestamp := now |}.

Definition completed_entry (r : dict) (ticket_id : Z) (now : Z) : AuditLog :=
  {| action := "ai_processing_completed"; entity_type := "ticket";
     entity_id := ticket_id;
     audit_description := "AI processing completed successfully";
     metadata := [("tokens_used", get_default r "tokens_used" (VInt 0))];
     timestamp := now |}.

Definition failed_entry (caps : Orchestrator.Capabilities) (e : exn)
    (ticket_id : Z) (now : Z) : AuditLog :=
  {| action := "ai_processing_failed"; entity_type := "ticket";
     entity_id := ticket_id;
     audit_description :=
       Orchestrator.fstring caps
         [Orchestrator.Lit "AI processing failed: ";
          Orchestrator.Interp (VStr (str_exn e))];
     metadata := [("error", VStr (str_exn e))];
     timestamp := now |}.

Definition completed_ticket (caps : Orchestrator.Capabilities) (r : dict) (now : Z)
    (t : Ticket) : Ticket :=
  set_tokens_used (get_default r "tokens_used" (VInt 0))
    (set_ai_model_used (Some (Orchestrator.model_name caps))
       (set_completed_at (Some now)
          (set_status COMPLETED (set_result_data r (set_status PROCESSING t))))).

Definition failed_ticket (e : exn) (t : Ticket) : Ticket :=
  set_error_message (Some (str_exn e))
    (set_status FAILED
       (set_error_message (Some (str_exn e)) (set_status FAILED (set_status PROCESSING t)))).

Definition job_result (ticket_id : Z) (r : dict) : dict :=
  [("status", VStr "completed"); ("ticket_id", VInt ticket_id); ("result", VDict r)].

(** The operations that write a ticket. *)
Inductive mutation : Type :=
| JobRun (caps : Orchestrator.Capabilities) (celery_task_id : string)
| Reprocess (current_user : User)
| StatusUpdate (fstring : list Orchestrator.fragment -> string) (status : string)
    (result_data : option dict).

Definition mutate (o : mutation) (ticket_id : Z) : Aio World dict :=
  match o with
  | JobRun caps celery_task_id =>
      Orchestrator.process_ticket_task caps ticket_id celery_task_id
  | Reprocess current_user => Endpoints.reprocess_ticket ticket_id current_user
  | StatusUpdate fstring status result_data =>
      TicketProcessor.update_ticket_status_task fstring ticket_id status result_data
  end.

(** The invariant of the completion time. *)
Definition completion_stamped (t : Ticket) : Prop :=
  status t = COMPLETED -> is_Some (completed_at t).

End Notions.

(** ** Concrete inputs *)

Module Examples.
Import WS Model Orchestrator Notions.

(** A transport on which nothing fails. *)
Definition quiet : WebSocket -> bool := fun _ => false.

(** Two registered identities: 7 owns channels 1 and 2, 8 owns channel 3. *)
Definition three_channels : Net :=
  {| manager :=
       manager (run_operations
                  [Connect quiet quiet 1%nat 7; Connect quiet quiet 2%nat 7;
                   Connect quiet quiet 3%nat 8] start);
     wire := [] |}.

(** One identity, 7, with the single channel 1. *)
Definition one_channel : Net :=
  {| manager := manager (run_operations [Connect quiet quiet 1%nat 7] start);
     wire := [] |}.

(** Collaborators that answer, and collaborators whose completion provider
    is out of quota. *)
Definition answering : Capabilities :=
  {| fstring := fun _ => "text";
     model_name := "grok-3";
     get_completion := fun _ => Returned {| content := "done"; usage := Some 12 |};
     get_pr_data := fun _ => Raised (ValueError "PR not found or not accessible");
     extract_text := fun _ => Returned "contents";
     execute_query := fun _ => Returned VNone |}.

Definition out_of_quota : Capabilities :=
  {| fstring := fun _ => "text";
     model_name := "grok-3";
     get_completion := fun _ => Raised (Exn "RateLimitError" "quota exceeded");
     get_pr_data := fun _ => Raised (ValueError "PR not found or not accessible");
     extract_text := fun _ => Returned "contents";
     execute_query := fun _ => Returned VNone |}.

(** Ticket 1, a custom task owned by identity 7, in a given status and with
    a given completion time. *)
Definition ticket1 (st : TicketStatus) (done : option Z) : Ticket :=
  {| id := 1; title := "summary"; description := ""; task_type := CUSTOM;
     priority := "medium"; status := st; created_by := 7; assigned_to := None;
     created_at := 10; updated_at := 10; completed_at := done;
     task_data := [("task_description", VStr "summarise")];
     result_data := []; error_message := None; ai_model_used := None;
     tokens_used := VInt 0; attachments := [] |}.

(** A store holding that ticket alone, with [jobs] on the queue, at time 100,
    while the owner has one live channel. *)
Definition world1 (t : Ticket) (jobs : list Z) : World :=
  {| tickets := {[ 1 := t ]}; audit_logs := []; celery_queue := jobs;
     clock := 100; net := one_channel |}.

Definition owner : User := {| user_id := 7; role := "user" |}.

End Examples.

(** ** The push endpoint ([api/v1/endpoints/websocket.py]) *)

Module Session.
Import WS.

(** What [get_current_user_from_token] yields for a token: the identity and
    its [is_active] flag.  The function lives outside these files and is
    taken as given: it returns a user, returns [None], or raises. *)
Record Principal : Type := {
  principal_id : Z;
  is_active : bool
}.

(** What one [websocket.receive_text()] brings: a text that [json.loads]
    turns into a dictionary, a text that is valid JSON but no object (so that
    [message.get] raises [AttributeError]), or a text that is no JSON. *)
Inductive received : Type :=
| Object (message : dict)
| NotObject
| Malformed.

(** [try: c finally: f] *)
Definition try_finally {St A} (c : Aio St A) (f : Aio St unit) : Aio St A :=
  fun s =>
    match c s with
    | (o, s') =>
        match f s' with
        | (Returned _, s'') => (o, s'')
        | (Raised e, s'') => (Raised e, s'')
        end
    end.

Definition invalid_json : dict :=
  [("type", VStr "error"); ("message", VStr "Invalid JSON format")].

Definition processing_error : dict :=
  [("type", VStr "error"); ("message", VStr "Error processing message")].

Section Transport.

Variable accept_fails : WebSocket -> bool.
Variable send_fails : WebSocket -> bool.
Variable close_fails : WebSocket -> bool.

(** [await websocket.close(code, reason)] *)
Definition close (websocket : WebSocket) : Aio Net unit :=
  if close_fails websocket then raise (Exn "RuntimeError" "close") else ret tt.

(** The body of the receive loop for one text. *)
Definition serve (websocket : WebSocket) (data : received) : Aio Net unit :=
  try_except
    (match data with
     | Malformed => raise (Exn "JSONDecodeError" "")
     | NotObject => raise (Exn "AttributeError" "get")
     | Object message => handle_client_message send_fails websocket message
     end)
    (fun e =>
       if String.eqb (exn_class e) "JSONDecodeError"
       then send_personal_message send_fails invalid_json websocket
       else send_personal_message send_fails processing_error websocket).

(** The endpoint for one connection.  The client sends [texts] and then
    leaves: the next [receive_text] raises [ending] ([WebSocketDisconnect] or
    another error; both are only logged). *)
Definition websocket_endpoint (websocket : WebSocket)
    (authenticated : outcome (option Principal))
    (texts : list received) (ending : exn) : Aio Net unit :=
  try_except
    (let* user := (fun s => (authenticated, s)) in
     match user with
     | None => close websocket
     | Some user =>
         if negb (is_active user) then close websocket
         else
           connect accept_fails send_fails websocket (principal_id user) ;;;
           try_finally
             (try_except
                (for_each texts (serve websocket) ;;; raise ending)
                (fun e => ret tt))
             (disconnect websocket)
     end)
    (fun e => close websocket).

(** [notify_ticket_update], [notify_processing_status], [notify_error] *)
Definition notify_ticket_update (ticket_id : Z) (update_data : dict)
    (user_id : option Z) : Aio Net unit :=
  send_ticket_update send_fails ticket_id update_data user_id.

Definition notify_processing_status (ticket_id : Z) (status : string) (user_id : Z)
    (details : option dict) : Aio Net unit :=
  send_processing_status send_fails ticket_id status user_id details.

Definition notify_error (ticket_id : Z) (error_message : string) (user_id : Z)
    : Aio Net unit :=
  send_error_notification send_fails ticket_id error_message user_id.

End Transport.

(** [websocket_status] *)
Definition websocket_status (m : ConnectionManager) : dict * nat * list Z :=
  ([("status", VStr "active")], get_connection_count m, get_connected_users m).

End Session.

(** ** The other ticket endpoints ([api/v1/endpoints/tickets.py]) *)

Module TicketApi.
Import Model.

(** The validated body of a creation request ([TicketCreate]); an absent
    description is the empty text, as a [Ticket] carries a text. *)
Record TicketCreate : Type := {
  new_title : string;
  new_description : string;
  new_task_type : string;
  new_priority : string;
  new_task_data : dict
}.

(** [db_ticket = Ticket(...); db.add; commit; refresh; delay].  [new_id] is
    the primary key the database assigns at the insert; the columns that the
    constructor leaves out take their declared defaults. *)
Definition create_ticket (new_id : Z) (ticket : TicketCreate) (current_user : User)
    : Aio World Ticket :=
  let* now := utcnow in
  let db_ticket :=
    {| id := new_id;
       title := new_title ticket;
       description := new_description ticket;
       task_type := new_task_type ticket;
       priority := new_priority ticket;
       status := PENDING;
       created_by := user_id current_user;
       assigned_to := None;
       created_at := now;
       updated_at := now;
       completed_at := None;
       task_data := new_task_data ticket;
       result_data := [];
       error_message := None;
       ai_model_used := None;
       tokens_used := VInt 0;
       attachments := [] |} in
  (fun w => (Returned tt, set_tickets (<[new_id := db_ticket]> (tickets w)) w)) ;;;
  commit ;;;
  delay new_id ;;;
  ret db_ticket.

Definition get_ticket (ticket_id : Z) (current_user : User) : Aio World Ticket :=
  let* found := db_get ticket_id in
  match found with
  | None => raise (HTTPException "Ticket not found")
  | Some ticket =>
      if negb (String.eqb (role current_user) "admin")
         && negb (Z.eqb (created_by ticket) (user_id current_user))
         && negb (bool_decide (assigned_to ticket = Some (user_id current_user)))
      then raise (HTTPException "Not authorized to view this ticket")
      else ret ticket
  end.

(** [await db.delete(ticket); await db.commit()]: the row goes, and its
    attachments with it.  The rows that [log_audit_event] writes carry no
    [ticket_id], so the cascade over [ticket.audit_logs] reaches none of
    them. *)
Definition delete_ticket (ticket_id : Z) (current_user : User) : Aio World unit :=
  let* found := db_get ticket_id in
  match found with
  | None => raise (HTTPException "Ticket not found")
  | Some ticket =>
      if negb (String.eqb (role current_user) "admin")
         && negb (Z.eqb (created_by ticket) (user_id current_user))
      then raise (HTTPException "Not authorized to delete this ticket")
      else
        (fun w => (Returned tt, set_tickets (delete ticket_id (tickets w)) w)) ;;;
        commit
  end.

End TicketApi.

(** ** Further notions used to state properties *)

Module MoreNotions.
Import WS Model Notions Session.

(** The reply [serve] sends for one text, if any. *)
Definition reply_to (registered_as : option Z) (data : received) : list dict :=
  match data with
  | Malformed => [invalid_json]
  | NotObject => [processing_error]
  | Object message =>
      if eq_str (get message "type") "ping" then [pong message]
      else if eq_str (get message "type") "subscribe_ticket" then
        if truthy (get message "ticket_id") && truthy_id registered_as
        then [subscription_confirmed message] else []
      else []
  end.

(** A ticket store and log that differ from [w] at most in the row of
    [ticket_id]. *)
Definition same_but_ticket (ticket_id : Z) (w w' : World) : Prop :=
  (forall other, other <> ticket_id -> tickets w' !! other = tickets w !! other) /\
  clock w' = clock w /\ net w' = net w.

(** Ticket 1 with a given task type, task input and attachments, alone in
    the store. *)
Definition ticket_of (ty : string) (data : dict) (atts : list TicketAttachment)
    : Ticket :=
  {| id := 1; title := "request"; description := ""; task_type := ty;
     priority := "low"; status := PENDING; created_by := 7; assigned_to := Some 9;
     created_at := 1; updated_at := 1; completed_at := None;
     task_data := data; result_data := []; error_message := None;
     ai_model_used := None; tokens_used := VInt 0; attachments := atts |}.

Definition store_of (t : Ticket) : World :=
  {| tickets := {[ 1 := t ]}; audit_logs := []; celery_queue := []; clock := 5;
     net := Examples.one_channel |}.

End MoreNotions.

(** * Properties *)

(** ** Facts about the multiplexer *)

Module MuxFacts.
Import WS Notions.

Lemma net_eta (s : Net) : {| manager := manager s; wire := wire s |} = s.
Proof. by destruct s. Qed.

Lemma disconnect_run (websocket : WebSocket) (s : Net) :
  disconnect websocket s =
  (Returned tt, {| manager := unregister websocket (manager s); wire := wire s |}).
Proof.
  destruct s as [[ac wu] w].
  unfold disconnect, unregister, bind, self, getitem, del_websocket_users,
    del_active_connections, set_active_connections, set_websocket_users, ret; simpl.
  destruct (wu !! websocket) as [u|] eqn:Hu; simpl; [|done].
  destruct (ac !! u) as [ws|] eqn:Hac; simpl.
  - simplify_map_eq. 
    destruct (decide (ws ∖ {[websocket]} = ∅)) as [He|He]; simpl.
    + unfold bind, self; simpl. simplify_map_eq. by rewrite delete_insert_eq.
    + unfold bind, self; simpl. by simplify_map_eq.
  - unfold bind, self; simpl. by simplify_map_eq.
Qed.

Lemma for_each_disconnect_run (l : list WebSocket) (s : Net) :
  for_each l disconnect s =
  (Returned tt,
   {| manager := foldl (fun m w => unregister w m) (manager s) l; wire := wire s |}).
Proof.
  revert s; induction l as [|w l IH]; intros s; simpl.
  - unfold ret. by rewrite net_eta.
  - unfold bind. rewrite disconnect_run. by rewrite IH.
Qed.

Lemma send_loop_run sf (message : dict) (l acc : list WebSocket) (s : Net) :
  for_acc l acc (send_or_mark sf message) s =
  (Returned (acc ++ List.filter sf l),
   {| manager := manager s;
      wire := wire s ++ map (fun w => (w, message)) (List.filter (fun w => negb (sf w)) l) |}).
Proof.
  revert acc s; induction l as [|w l IH]; intros acc s; simpl.
  - unfold ret. by rewrite !app_nil_r, net_eta.
  - unfold bind at 1. unfold send_or_mark at 1.
    unfold try_except, bind, send_text, json_dumps, ret.
    destruct (sf w) eqn:Hw; simpl.
    + rewrite IH. by rewrite <- app_assoc.
    + rewrite IH. simpl. by rewrite <- app_assoc.
Qed.

Lemma for_acc_app {St X B} (l1 l2 : list X) (acc : B) (body : X -> B -> Aio St B) (s : St) :
  for_acc (l1 ++ l2) acc body s =
  bind (for_acc l1 acc body) (fun acc' => for_acc l2 acc' body) s.
Proof.
  revert acc s; induction l1 as [|x l1 IH]; intros acc s; simpl; [done|].
  unfold bind in *. destruct (body x acc s) as [[acc'|e] s']; [|done].
  by rewrite IH.
Qed.

Lemma for_acc_nested {St X Y B} (f : X -> list Y) (items : list X) (acc : B)
    (body : Y -> B -> Aio St B) (s : St) :
  for_acc items acc (fun item acc' => for_acc (f item) acc' body) s =
  for_acc (flat_map f items) acc body s.
Proof.
  revert acc s; induction items as [|x items IH]; intros acc s; simpl; [done|].
  rewrite for_acc_app. unfold bind.
  destruct (for_acc (f x) acc body s) as [[acc'|e] s']; [|done].
  apply IH.
Qed.

Lemma send_message_to_user_run sf (message : dict) (u : Z) (s : Net) :
  send_message_to_user sf message u s =
  (Returned tt,
   match active_connections (manager s) !! u with
   | None => s
   | Some websockets =>
       {| manager := foldl (fun m w => unregister w m) (manager s)
                       (List.filter sf (elements websockets));
          wire := wire s ++ map (fun w => (w, message))
                              (List.filter (fun w => negb (sf w)) (elements websockets)) |}
   end).
Proof.
  unfold send_message_to_user, bind, self, getitem; simpl.
  destruct (active_connections (manager s) !! u) as [ws|] eqn:Hu; simpl; [|done].
  rewrite send_loop_run. simpl.
  by rewrite for_each_disconnect_run.
Qed.

Lemma broadcast_to_all_run sf (message : dict) (s : Net) :
  let targets :=
    flat_map (fun item => elements (snd item))
      (map_to_list (active_connections (manager s))) in
  broadcast_to_all sf message s =
  (Returned tt,
   {| manager := foldl (fun m w => unregister w m) (manager s) (List.filter sf targets);
      wire := wire s ++ map (fun w => (w, message))
                          (List.filter (fun w => negb (sf w)) targets) |}).
Proof.
  intros targets. unfold broadcast_to_all, bind, self; simpl.
  rewrite (for_acc_nested (fun item : Z * gset WebSocket => elements (snd item))).
  fold targets. rewrite send_loop_run. simpl.
  by rewrite for_each_disconnect_run.
Qed.

Lemma send_personal_message_run sf (message : dict) (websocket : WebSocket) (s : Net) :
  send_personal_message sf message websocket s =
  (Returned tt,
   if sf websocket
   then {| manager := unregister websocket (manager s); wire := wire s |}
   else {| manager := manager s; wire := wire s ++ [(websocket, message)] |}).
Proof.
  unfold send_personal_message, try_except, send_text, json_dumps.
  destruct (sf websocket); [|done]. by rewrite disconnect_run.
Qed.


Lemma unregister_users (w : WebSocket) (m : ConnectionManager) :
  websocket_users (unregister w m) = delete w (websocket_users m).
Proof.
  unfold unregister. destruct (websocket_users m !! w) eqn:Hw; simpl; [done|].
  symmetry. by apply delete_id.
Qed.

Lemma unregister_channels (w : WebSocket) (m : ConnectionManager) (u : Z) :
  channels (unregister w m) u =
  if decide (websocket_users m !! w = Some u) then channels m u ∖ {[w]} else channels m u.
Proof.
  unfold unregister, channels.
  destruct (websocket_users m !! w) as [u'|] eqn:Hw; simpl.
  2:{ done. }
  destruct (decide (Some u' = Some u)) as [Heq|Hne].
  - injection Heq as ->.
    destruct (active_connections m !! u) as [ws|] eqn:Hu; simpl.
    + destruct (decide (ws ∖ {[w]} = ∅)) as [He|He]; simplify_map_eq; done.
    + rewrite Hu. simpl. set_solver.
  - assert (u' <> u) by congruence.
    destruct (active_connections m !! u') as [ws|] eqn:Hu; simpl; [|done].
    destruct (decide (ws ∖ {[w]} = ∅)) as [He|He]; by simplify_map_eq.
Qed.

Lemma fold_unregister_users (l : list WebSocket) (m : ConnectionManager) (w : WebSocket) :
  websocket_users (foldl (fun m w => unregister w m) m l) !! w =
  if decide (w ∈ l) then None else websocket_users m !! w.
Proof.
  revert m; induction l as [|x l IH]; intros m; cbn [foldl].
  - destruct (decide (w ∈ [])) as [H|H]; [by apply elem_of_nil in H | done].
  - rewrite IH, unregister_users.
    destruct (decide (x = w)) as [->|Hx].
    + rewrite lookup_delete_eq.
      destruct (decide (w ∈ l)); destruct (decide (w ∈ w :: l)); try done;
        exfalso; set_solver.
    + rewrite lookup_delete_ne by done.
      destruct (decide (w ∈ l)); destruct (decide (w ∈ x :: l)); try done;
        exfalso; set_solver.
Qed.

Lemma fold_unregister_channels (l : list WebSocket) (m : ConnectionManager)
    (w : WebSocket) (u : Z) :
  w ∈ channels (foldl (fun m w => unregister w m) m l) u <->
  w ∈ channels m u /\ ~ (w ∈ l /\ websocket_users m !! w = Some u).
Proof.
  revert m; induction l as [|x l IH]; intros m; cbn [foldl].
  - set_solver.
  - rewrite IH, unregister_channels, unregister_users.
    destruct (decide (x = w)) as [->|Hx].
    + simplify_map_eq.
      destruct (decide (websocket_users m !! w = Some u)) as [Hu|Hu].
      * set_solver.
      * split; [intros [? _]; split; [done|tauto] | intros [? _]; split; [done|]].
        intros [_ ?]; done.
    + rewrite lookup_delete_ne by done.
      destruct (decide (websocket_users m !! x = Some u)) as [Hu|Hu]; set_solver.
Qed.


Lemma sum_list_perm (l1 l2 : list nat) : l1 ≡ₚ l2 -> sum_list l1 = sum_list l2.
Proof. induction 1; simpl; lia. Qed.

Lemma count_insert (ac : gmap Z (gset WebSocket)) (wu : gmap WebSocket Z) (u : Z)
    (websockets : gset WebSocket) :
  ac !! u = None ->
  get_connection_count {| active_connections := <[u := websockets]> ac; websocket_users := wu |} =
  (size websockets + get_connection_count {| active_connections := ac; websocket_users := wu |})%nat.
Proof.
  intros Hu. unfold get_connection_count; simpl.
  rewrite (sum_list_perm _ (map (fun item => size (snd item)) ((u, websockets) :: map_to_list ac))).
  - done.
  - apply Permutation_map. by apply map_to_list_insert.
Qed.

(** When the two dictionaries agree, the sets partition the channels. *)
Lemma consistent_count_aux (ac : gmap Z (gset WebSocket)) :
  forall wu : gmap WebSocket Z,
    consistent {| active_connections := ac; websocket_users := wu |} ->
    get_connection_count {| active_connections := ac; websocket_users := wu |} = size wu.
Proof.
  induction ac as [|u websockets ac Hu _ IH] using map_first_key_ind; intros wu Hc.
  - assert (wu = ∅) as ->.
    { apply map_empty. intros w. destruct (wu !! w) as [v|] eqn:Hw; [|done].
      apply Hc in Hw as (ws & Hws & _). simpl in Hws. by rewrite lookup_empty in Hws. }
    unfold get_connection_count; simpl. by rewrite map_to_list_empty, map_size_empty.
  - rewrite count_insert by done.
    set (P := fun kv : WebSocket * Z => kv.2 = u).
    rewrite <- (map_filter_union_complement P wu) at 2.
    rewrite map_size_disj_union by apply map_disjoint_filter_complement.
    f_equal.
    + rewrite <- size_dom. f_equal. apply set_eq. intros w.
      rewrite elem_of_dom. split.
      * intros Hw. exists u. apply map_lookup_filter_Some. split; [|done].
        apply Hc. exists websockets. simpl. by rewrite lookup_insert_eq.
      * intros [v Hv]. apply map_lookup_filter_Some in Hv as [Hv Hp].
        unfold P in Hp; simpl in Hp; subst v.
        apply Hc in Hv as (ws & Hws & Hin). simpl in Hws.
        rewrite lookup_insert_eq in Hws. by injection Hws as ->.
    + rewrite (IH (filter (fun v => ~ P v) wu)); [done|].
      intros w v; simpl. rewrite map_lookup_filter_Some. unfold P; simpl. split.
      * intros [Hw Hne]. apply Hc in Hw as (ws & Hws & Hin). simpl in Hws.
        rewrite lookup_insert_ne in Hws by done. eauto.
      * intros (ws & Hws & Hin).
        assert (u <> v) by (intros ->; congruence).
        split; [|done]. apply Hc. exists ws. simpl.
        by rewrite lookup_insert_ne.
Qed.

Lemma consistent_count (m : ConnectionManager) :
  consistent m -> get_connection_count m = size (websocket_users m).
Proof. destruct m as [ac wu]. apply consistent_count_aux. Qed.


Lemma connect_run af sf (websocket : WebSocket) (u : Z) (s : Net) :
  connect af sf websocket u s =
  if af websocket then (Raised (Exn "RuntimeError" "accept"), s)
  else
    (Returned tt,
     if sf websocket
     then {| manager := unregister websocket (register websocket u (manager s));
             wire := wire s |}
     else {| manager := register websocket u (manager s);
             wire := wire s ++ [(websocket, connection_confirmed u)] |}).
Proof.
  destruct s as [[ac wu] w].
  unfold connect, accept, bind at 1.
  destruct (af websocket); [done|].
  unfold ret at 1. unfold bind at 1. unfold self at 1. simpl.
  assert (forall ac' : gmap Z (gset WebSocket),
    ac' !! u = Some (channels {| active_connections := ac; websocket_users := wu |} u) ->
    <[u := channels {| active_connections := ac; websocket_users := wu |} u ∪ {[websocket]}]> ac' =
    <[u := channels {| active_connections := ac; websocket_users := wu |} u ∪ {[websocket]}]> ac ->
    bind self (fun m =>
      bind (getitem (active_connections m) u) (fun websockets =>
        bind (set_active_connections (<[u := websockets ∪ {[websocket]}]> (active_connections m)))
          (fun _ => bind self (fun m =>
             bind (set_websocket_users (<[websocket := u]> (websocket_users m)))
               (fun _ => send_personal_message sf
                           [("type", VStr "connection_confirmed");
                            ("message", VStr "WebSocket connection established");
                            ("user_id", VInt u)] websocket)))))
      {| manager := {| active_connections := ac'; websocket_users := wu |}; wire := w |} =
    (Returned tt,
     if sf websocket
     then {| manager := unregister websocket
               (register websocket u {| active_connections := ac; websocket_users := wu |});
             wire := w |}
     else {| manager := register websocket u {| active_connections := ac; websocket_users := wu |};
             wire := w ++ [(websocket, connection_confirmed u)] |})) as Hrest.
  { intros ac' Hlook Hins.
    unfold bind, self, getitem, set_active_connections, set_websocket_users; simpl.
    rewrite Hlook. unfold ret; simpl.
    rewrite send_personal_message_run. simpl.
    unfold register, connection_confirmed; simpl. by rewrite Hins. }
  unfold channels in *; simpl in *.
  destruct (ac !! u) as [ws|] eqn:Hu; simpl.
  - unfold bind at 1, ret at 1. apply Hrest; done.
  - unfold bind at 1, set_active_connections at 1. simpl. apply Hrest.
    + by rewrite lookup_insert_eq.
    + by rewrite insert_insert_eq.
Qed.

Lemma consistent_channels (m : ConnectionManager) :
  consistent m <->
  forall w u, websocket_users m !! w = Some u <-> w ∈ channels m u.
Proof.
  unfold consistent, channels.
  split; intros H w u; rewrite H; clear H.
  - destruct (active_connections m !! u) as [ws|]; simpl.
    + split; [by intros (? & [= ->] & ?) | eauto].
    + split; [by intros (? & ? & ?) | set_solver].
  - destruct (active_connections m !! u) as [ws|]; simpl.
    + split; [eauto | by intros (? & [= ->] & ?)].
    + split; [set_solver | by intros (? & ? & ?)].
Qed.

Lemma register_channels (w : WebSocket) (u u' : Z) (m : ConnectionManager) :
  channels (register w u m) u' =
  if decide (u = u') then channels m u ∪ {[w]} else channels m u'.
Proof.
  unfold register, channels at 1; simpl.
  destruct (decide (u = u')) as [->|Hne]; by simplify_map_eq.
Qed.

Lemma consistent_register (w : WebSocket) (u : Z) (m : ConnectionManager) :
  consistent m ->
  websocket_users m !! w = None \/ websocket_users m !! w = Some u ->
  consistent (register w u m).
Proof.
  rewrite !consistent_channels. intros Hc Hpre x v.
  rewrite register_channels. unfold register at 1; simpl.
  destruct (decide (w = x)) as [->|Hx].
  - rewrite lookup_insert_eq.
    destruct (decide (u = v)) as [->|Hv]; [set_solver|].
    split; [congruence|]. intros Hin. apply Hc in Hin.
    destruct Hpre; congruence.
  - rewrite lookup_insert_ne by done. rewrite Hc.
    destruct (decide (u = v)) as [->|Hv]; set_solver.
Qed.

Lemma consistent_unregister (w : WebSocket) (m : ConnectionManager) :
  consistent m -> consistent (unregister w m).
Proof.
  rewrite !consistent_channels. intros Hc x v.
  rewrite unregister_channels, unregister_users.
  destruct (decide (w = x)) as [->|Hx].
  - rewrite lookup_delete_eq.
    destruct (decide (websocket_users m !! x = Some v)) as [Hv|Hv]; [set_solver|].
    split; [done|]. intros Hin. by apply Hc in Hin.
  - rewrite lookup_delete_ne by done. rewrite Hc.
    destruct (decide (websocket_users m !! w = Some v)); set_solver.
Qed.

Lemma no_empty_entry_register (w : WebSocket) (u : Z) (m : ConnectionManager) :
  no_empty_entry m -> no_empty_entry (register w u m).
Proof.
  intros Hn v. unfold register; simpl.
  destruct (decide (u = v)) as [->|Hv].
  - rewrite lookup_insert_eq. intros [= He]. set_solver.
  - rewrite lookup_insert_ne by done. apply Hn.
Qed.

Lemma no_empty_entry_unregister (w : WebSocket) (m : ConnectionManager) :
  no_empty_entry m -> no_empty_entry (unregister w m).
Proof.
  intros Hn v. unfold unregister.
  destruct (websocket_users m !! w) as [u|]; simpl; [|apply Hn].
  destruct (active_connections m !! u) as [ws|] eqn:Hu; simpl; [|apply Hn].
  destruct (decide (ws ∖ {[w]} = ∅)) as [He|He].
  - destruct (decide (u = v)) as [->|Hv]; [by rewrite lookup_delete_eq|].
    rewrite lookup_delete_ne by done. apply Hn.
  - destruct (decide (u = v)) as [->|Hv]; [rewrite lookup_insert_eq; congruence|].
    rewrite lookup_insert_ne by done. apply Hn.
Qed.

Lemma fold_unregister_invariant (l : list WebSocket) (m : ConnectionManager) :
  consistent m /\ no_empty_entry m ->
  consistent (foldl (fun m w => unregister w m) m l) /\
  no_empty_entry (foldl (fun m w => unregister w m) m l).
Proof.
  revert m; induction l as [|w l IH]; intros m [Hc Hn]; cbn [foldl]; [done|].
  apply IH. split; [by apply consistent_unregister | by apply no_empty_entry_unregister].
Qed.


Lemma count_delete (ac : gmap Z (gset WebSocket)) (wu wu' : gmap WebSocket Z) (u : Z)
    (websockets : gset WebSocket) :
  ac !! u = Some websockets ->
  get_connection_count {| active_connections := ac; websocket_users := wu |} =
  (size websockets +
   get_connection_count {| active_connections := delete u ac; websocket_users := wu' |})%nat.
Proof.
  intros Hu. rewrite <- (insert_delete_id ac u websockets Hu) at 1.
  rewrite (count_insert _ wu) by apply lookup_delete_eq. done.
Qed.

Lemma count_unregister (w : WebSocket) (m : ConnectionManager) :
  (get_connection_count (unregister w m) <= get_connection_count m)%nat /\
  (get_connection_count m <= get_connection_count (unregister w m) + 1)%nat.
Proof.
  destruct m as [ac wu]. unfold unregister; simpl.
  destruct (wu !! w) as [u|] eqn:Hw; simpl; [|lia].
  destruct (ac !! u) as [ws|] eqn:Hu; simpl.
  2:{ unfold get_connection_count; simpl. lia. }
  rewrite (count_delete ac wu (delete w wu) u ws Hu).
  assert (size ws <= size (ws ∖ {[w]}) + 1)%nat as Hsz.
  { destruct (decide (w ∈ ws)) as [Hin|Hin].
    - rewrite size_difference by set_solver. rewrite size_singleton. lia.
    - assert (ws ∖ {[w]} = ws) as -> by set_solver. lia. }
  assert (size (ws ∖ {[w]}) <= size ws)%nat as Hsz'.
  { apply subseteq_size. set_solver. }
  destruct (decide (ws ∖ {[w]} = ∅)) as [He|He].
  - rewrite He, size_empty in Hsz. lia.
  - rewrite <- insert_delete_eq.
    rewrite (count_insert _ (delete w wu)) by apply lookup_delete_eq. lia.
Qed.

(** Apart from the registration in [connect], every operation changes the
    manager only by disconnecting channels. *)
Lemma perform_manager (o : operation) (s : Net) :
  (exists l, manager (exec (perform o) s) = foldl (fun m w => unregister w m) (manager s) l) \/
  (exists af sf w u, o = Connect af sf w u /\
     exists l, manager (exec (perform o) s) =
               foldl (fun m w => unregister w m) (register w u (manager s)) l).
Proof.
  destruct o as [af sf w u|w|sf msg w|sf msg u|sf msg|sf tid upd u|sf tid st u det
                 |sf tid text u|sf w msg]; unfold exec; simpl.
  - rewrite connect_run. destruct (af w); simpl.
    + left. by exists [].
    + right. exists af, sf, w, u. split; [done|].
      destruct (sf w); simpl; [by exists [w] | by exists []].
  - left. rewrite disconnect_run. by exists [w].
  - left. rewrite send_personal_message_run.
    destruct (sf w); simpl; [by exists [w] | by exists []].
  - left. rewrite send_message_to_user_run. simpl.
    destruct (active_connections (manager s) !! u); simpl; [eauto | by exists []].
  - left. rewrite broadcast_to_all_run. simpl. eauto.
  - left. unfold send_ticket_update.
    destruct u as [u|]; [destruct (truthy (VInt u))|].
    + rewrite send_message_to_user_run. simpl.
      destruct (active_connections (manager s) !! u); simpl; [eauto | by exists []].
    + rewrite broadcast_to_all_run. simpl. eauto.
    + rewrite broadcast_to_all_run. simpl. eauto.
  - left. unfold send_processing_status. rewrite send_message_to_user_run. simpl.
    destruct (active_connections (manager s) !! u); simpl; [eauto | by exists []].
  - left. unfold send_error_notification. rewrite send_message_to_user_run. simpl.
    destruct (active_connections (manager s) !! u); simpl; [eauto | by exists []].
  - left. unfold handle_client_message.
    destruct (eq_str (get msg "type") "ping").
    + rewrite send_personal_message_run.
      destruct (sf w); simpl; [by exists [w] | by exists []].
    + destruct (eq_str (get msg "type") "subscribe_ticket"); [|by exists []].
      unfold bind, self; simpl.
      destruct (truthy (get msg "ticket_id") && truthy_id (websocket_users (manager s) !! w)).
      * rewrite send_personal_message_run.
        destruct (sf w); simpl; [by exists [w] | by exists []].
      * by exists [].
Qed.

Lemma run_operations_invariant (ops : list operation) (s : Net) :
  consistent (manager s) -> no_empty_entry (manager s) ->
  connects_unregistered ops s ->
  consistent (manager (run_operations ops s)) /\
  no_empty_entry (manager (run_operations ops s)).
Proof.
  revert s; induction ops as [|o ops IH]; intros s Hc Hn Hpre; [done|].
  destruct Hpre as [Ho Hpre]. unfold run_operations; cbn [foldl].
  destruct (perform_manager o s) as [[l Hl] | (af & sf & w & u & -> & l & Hl)].
  - destruct (fold_unregister_invariant l (manager s)) as [Hc' Hn']; [done|].
    rewrite <- Hl in Hc', Hn'. by apply IH.
  - destruct (fold_unregister_invariant l (register w u (manager s))) as [Hc' Hn'].
    { split; [by apply consistent_register | by apply no_empty_entry_register]. }
    rewrite <- Hl in Hc', Hn'. by apply IH.
Qed.

Lemma elem_of_List_filter {A} (f : A -> bool) (l : list A) (x : A) :
  x ∈ List.filter f l <-> x ∈ l /\ f x = true.
Proof. rewrite !list_elem_of_In. apply filter_In. Qed.

Lemma NoDup_List_filter {A} (f : A -> bool) (l : list A) :
  NoDup l -> NoDup (List.filter f l).
Proof.
  induction 1 as [|x l Hx Hl IH]; simpl; [constructor|].
  destruct (f x); [|done]. constructor; [|done].
  rewrite elem_of_List_filter. tauto.
Qed.

(** The texts a sending loop puts on the wire. *)
Lemma elem_of_sent (message m' : dict) (sf : WebSocket -> bool) (l : list WebSocket)
    (w : WebSocket) :
  (w, m') ∈ map (fun w => (w, message)) (List.filter (fun w => negb (sf w)) l) <->
  m' = message /\ w ∈ l /\ sf w = false.
Proof.
  change (map (fun w => (w, message))) with (fmap (M := list) (fun w : WebSocket => (w, message))).
  rewrite list_elem_of_fmap. split.
  - intros (x & [= -> ->] & Hx). apply elem_of_List_filter in Hx as [? Hsf].
    by apply negb_true_iff in Hsf.
  - intros (-> & Hl & Hsf). exists w. split; [done|].
    apply elem_of_List_filter. split; [done|]. by apply negb_true_iff.
Qed.

Lemma elem_of_targets (m : ConnectionManager) (w : WebSocket) :
  w ∈ flat_map (fun item : Z * gset WebSocket => elements (snd item))
        (map_to_list (active_connections m)) <->
  exists u, w ∈ channels m u.
Proof.
  rewrite list_elem_of_In, in_flat_map. unfold channels. split.
  - intros ([u ws] & Hitem & Hw). simpl in Hw.
    apply list_elem_of_In, elem_of_map_to_list in Hitem.
    apply list_elem_of_In, elem_of_elements in Hw.
    exists u. by rewrite Hitem.
  - intros [u Hw]. destruct (active_connections m !! u) as [ws|] eqn:Hu; simpl in Hw.
    + exists (u, ws). split.
      * by apply list_elem_of_In, elem_of_map_to_list.
      * by apply list_elem_of_In, elem_of_elements.
    + set_solver.
Qed.

(** What [send_message_to_user] puts on the wire. *)
Lemma sent_to_user (sf : WebSocket -> bool) (message : dict) (u : Z) (s : Net) :
  exists out,
    wire (exec (send_message_to_user sf message u) s) = wire s ++ out /\ NoDup out /\
    forall w m', (w, m') ∈ out <->
                 m' = message /\ w ∈ channels (manager s) u /\ sf w = false.
Proof.
  unfold exec. rewrite send_message_to_user_run. simpl.
  destruct (active_connections (manager s) !! u) as [ws|] eqn:Hu; simpl.
  - assert (channels (manager s) u = ws) as -> by (unfold channels; by rewrite Hu).
    eexists. split; [done|]. split.
    + assert (Inj eq eq (fun w : WebSocket => (w, message))) as Hinj
        by (intros ? ? [= ->]; done).
      apply (NoDup_fmap_2 (fun w : WebSocket => (w, message))).
      apply NoDup_List_filter, NoDup_elements.
    + intros w m'. rewrite elem_of_sent, elem_of_elements. done.
  - assert (channels (manager s) u = ∅) as -> by (unfold channels; by rewrite Hu).
    exists []. rewrite app_nil_r. split; [done|]. split; [constructor|].
    intros w m'. split; [by intros ?%elem_of_nil | set_solver].
Qed.

End MuxFacts.

(** ** The connection multiplexer: claims C6 to C10 *)

Module Multiplexer.
Import WS Notions Examples MuxFacts.

(** C6. [disconnect] never raises; on a channel that is not registered it
    changes nothing; calling it twice leaves what calling it once leaves, so
    the connection count is decremented at most once; and when the channel
    was the last one of its identity, the identity's entry is removed. *)
Theorem disconnect_idempotent (websocket : WebSocket) (s : Net) :
  let once := exec (disconnect websocket) s in
  let twice := exec (disconnect websocket) once in
  result (disconnect websocket) s = Returned tt /\
  result (disconnect websocket) once = Returned tt /\
  (websocket_users (manager s) !! websocket = None -> once = s) /\
  twice = once /\
  get_connection_count (manager twice) = get_connection_count (manager once) /\
  (get_connection_count (manager s) <= get_connection_count (manager twice) + 1)%nat /\
  (forall u websockets,
      websocket_users (manager s) !! websocket = Some u ->
      active_connections (manager s) !! u = Some websockets ->
      websockets ∖ {[websocket]} = ∅ ->
      active_connections (manager once) !! u = None).
Proof.
  intros once twice. subst twice once. unfold exec, result.
  rewrite !disconnect_run. simpl.
  assert (unregister websocket (unregister websocket (manager s)) =
          unregister websocket (manager s)) as Hidem.
  { unfold unregister at 1. rewrite unregister_users, lookup_delete_eq. done. }
  repeat split.
  - intros Hnone. unfold unregister. rewrite Hnone. apply net_eta.
  - by rewrite Hidem.
  - by rewrite Hidem.
  - rewrite Hidem. apply count_unregister.
  - intros u websockets Hu Hac He. unfold unregister. rewrite Hu. simpl.
    rewrite Hac. rewrite decide_True by done. apply lookup_delete_eq.
Qed.

Lemma disconnect_idempotent_witness :
  exec (disconnect 5%nat) one_channel = one_channel /\
  active_connections (manager (exec (disconnect 1%nat) one_channel)) !! 7 = None.
Proof.
  pose proof (disconnect_idempotent 5%nat one_channel) as (_ & _ & Hnoop & _).
  pose proof (disconnect_idempotent 1%nat one_channel) as (_ & _ & _ & _ & _ & _ & Hlast).
  split.
  - apply Hnoop. vm_compute. reflexivity.
  - apply (Hlast 7 {[1%nat]}); vm_compute; reflexivity.
Defined.


(** C7. [send_message_to_user] never raises.  It puts the message, once, on
    every channel of the identity whose send succeeds; a channel whose send
    fails is disconnected and no other channel is; for an identity without
    channels nothing changes. *)
Theorem send_to_identity_isolates_failures (sf : WebSocket -> bool) (message : dict)
    (u : Z) (s : Net) :
  let s' := exec (send_message_to_user sf message u) s in
  result (send_message_to_user sf message u) s = Returned tt /\
  (exists out,
      wire s' = wire s ++ out /\ NoDup out /\
      forall w m', (w, m') ∈ out <->
                   m' = message /\ w ∈ channels (manager s) u /\ sf w = false) /\
  (forall w,
      websocket_users (manager s') !! w =
      if decide (w ∈ channels (manager s) u /\ sf w = true)
      then None else websocket_users (manager s) !! w) /\
  (forall w v,
      w ∈ channels (manager s') v <->
      w ∈ channels (manager s) v /\
      ~ (w ∈ channels (manager s) u /\ sf w = true /\
         websocket_users (manager s) !! w = Some v)) /\
  (channels (manager s) u = ∅ -> s' = s).
Proof.
  intros s'. subst s'. unfold exec, result.
  rewrite send_message_to_user_run. simpl.
  destruct (active_connections (manager s) !! u) as [ws|] eqn:Hu; simpl.
  - assert (channels (manager s) u = ws) as -> by (unfold channels; by rewrite Hu).
    split; [done|]. split; [|split; [|split]].
    + destruct (sent_to_user sf message u s) as (out & Hout & Hnd & Hmem).
      unfold exec in Hout. rewrite send_message_to_user_run, Hu in Hout. simpl in Hout.
      assert (channels (manager s) u = ws) as Hch by (unfold channels; by rewrite Hu).
      rewrite Hch in Hmem. by exists out.
    + intros w. rewrite fold_unregister_users.
      destruct (decide (w ∈ List.filter sf (elements ws))) as [Hin|Hin];
        rewrite elem_of_List_filter, elem_of_elements in Hin;
        destruct (decide (w ∈ ws /\ sf w = true)); done.
    + intros w v. rewrite fold_unregister_channels.
      rewrite elem_of_List_filter, elem_of_elements. tauto.
    + intros ->. rewrite elements_empty. simpl. rewrite app_nil_r. apply net_eta.
  - assert (channels (manager s) u = ∅) as -> by (unfold channels; by rewrite Hu).
    split; [done|]. split; [|split; [|split]].
    + exists []. rewrite app_nil_r. split; [done|]. split; [constructor|].
      intros w m'. split; [by intros ?%elem_of_nil | set_solver].
    + intros w. destruct (decide (w ∈ (∅ : gset WebSocket) /\ sf w = true)); [set_solver|done].
    + intros w v. set_solver.
    + done.
Qed.

Lemma send_to_identity_isolates_failures_witness :
  exec (send_message_to_user quiet [("type", VStr "x")] 9) three_channels = three_channels.
Proof.
  pose proof (send_to_identity_isolates_failures quiet [("type", VStr "x")] 9 three_channels)
    as (_ & _ & _ & _ & Hnone).
  apply Hnone. vm_compute. reflexivity.
Defined.


(** C10. Called without an owner ([None], or the falsy identity 0),
    [send_ticket_update] is [broadcast_to_all] of the [ticket_update]
    message: it never raises and puts the message on every channel of every
    identity whose send succeeds, and on no other. *)
Theorem ticket_update_without_owner_broadcasts (sf : WebSocket -> bool)
    (ticket_id : Z) (update_data : dict) (user_id : option Z) (s : Net) :
  user_id = None \/ user_id = Some 0 ->
  let message := ticket_update ticket_id update_data in
  let s' := exec (send_ticket_update sf ticket_id update_data user_id) s in
  get message "type" = VStr "ticket_update" /\
  get message "ticket_id" = VInt ticket_id /\
  send_ticket_update sf ticket_id update_data user_id s = broadcast_to_all sf message s /\
  result (send_ticket_update sf ticket_id update_data user_id) s = Returned tt /\
  exists out,
    wire s' = wire s ++ out /\
    forall w m', (w, m') ∈ out <->
                 m' = message /\ sf w = false /\ exists u, w ∈ channels (manager s) u.
Proof.
  intros Hid message s'.
  assert (send_ticket_update sf ticket_id update_data user_id s =
          broadcast_to_all sf message s) as Heq.
  { unfold send_ticket_update. by destruct Hid as [-> | ->]. }
  subst s'. unfold exec, result. rewrite Heq.
  repeat split; try done.
  - by rewrite broadcast_to_all_run.
  - rewrite broadcast_to_all_run. simpl. eexists. split; [done|].
    intros w m'. rewrite elem_of_sent, elem_of_targets. tauto.
Qed.

Lemma ticket_update_without_owner_broadcasts_witness :
  wire (exec (send_ticket_update quiet 42 [] (Some 0)) three_channels) =
  [(2%nat, ticket_update 42 []); (1%nat, ticket_update 42 []);
   (3%nat, ticket_update 42 [])].
Proof.
  pose proof (ticket_update_without_owner_broadcasts quiet 42 [] (Some 0) three_channels
                (or_intror eq_refl)) as (_ & _ & Heq & _).
  unfold exec. rewrite Heq. vm_compute. reflexivity.
Defined.

(** C8, as the code has it.  [handle_client_message] never raises.  A [ping]
    is answered on that channel only with a [pong] that echoes the
    [timestamp] field.  A [subscribe_ticket] is acknowledged with
    [subscription_confirmed] carrying the ticket id when the ticket id is
    truthy and the channel is registered to a truthy identity, and is ignored
    without any reply otherwise.  Any other type is ignored without a reply.
    A reply whose send fails disconnects the channel. *)
Theorem client_message_replies (sf : WebSocket -> bool) (websocket : WebSocket)
    (message : dict) (s : Net) :
  let s' := exec (handle_client_message sf websocket message) s in
  let reply (text : dict) :=
    if sf websocket
    then {| manager := unregister websocket (manager s); wire := wire s |}
    else {| manager := manager s; wire := wire s ++ [(websocket, text)] |} in
  result (handle_client_message sf websocket message) s = Returned tt /\
  (eq_str (get message "type") "ping" = true -> s' = reply (pong message)) /\
  (eq_str (get message "type") "subscribe_ticket" = true ->
   truthy (get message "ticket_id") = true ->
   truthy_id (websocket_users (manager s) !! websocket) = true ->
   s' = reply (subscription_confirmed message)) /\
  (eq_str (get message "type") "subscribe_ticket" = true ->
   truthy (get message "ticket_id") = false \/
   truthy_id (websocket_users (manager s) !! websocket) = false ->
   s' = s) /\
  (eq_str (get message "type") "ping" = false ->
   eq_str (get message "type") "subscribe_ticket" = false ->
   s' = s).
Proof.
  intros s' reply. subst s' reply. unfold exec, result, handle_client_message.
  assert (forall ty, eq_str ty "ping" = true -> eq_str ty "subscribe_ticket" = false)
    as Hexcl.
  { intros [| | |t|]; simpl; try done. intros ->%String.eqb_eq. done. }
  destruct (eq_str (get message "type") "ping") eqn:Hping.
  - rewrite send_personal_message_run. simpl.
    rewrite (Hexcl _ Hping). repeat split; done.
  - destruct (eq_str (get message "type") "subscribe_ticket") eqn:Hsub.
    + unfold bind, self; simpl.
      destruct (truthy (get message "ticket_id")) eqn:Htid;
        destruct (truthy_id (websocket_users (manager s) !! websocket)) eqn:Huid; simpl;
        try rewrite send_personal_message_run; simpl;
        repeat split; try done; intros; try done.
      all: by destruct H0.
    + repeat split; done.
Qed.

Lemma client_message_replies_witness :
  wire (exec (handle_client_message quiet 1%nat
                [("type", VStr "ping"); ("timestamp", VInt 99)]) one_channel) =
    [(1%nat, [("type", VStr "pong"); ("timestamp", VInt 99)])] /\
  wire (exec (handle_client_message quiet 1%nat
                [("type", VStr "subscribe_ticket"); ("ticket_id", VInt 42)]) one_channel) =
    [(1%nat, [("type", VStr "subscription_confirmed"); ("ticket_id", VInt 42)])] /\
  exec (handle_client_message quiet 1%nat
          [("type", VStr "subscribe_ticket"); ("ticket_id", VInt 0)]) one_channel =
    one_channel /\
  exec (handle_client_message quiet 1%nat [("type", VStr "hello")]) one_channel =
    one_channel.
Proof.
  pose proof (client_message_replies quiet 1%nat
                [("type", VStr "ping"); ("timestamp", VInt 99)] one_channel)
    as (_ & Hping & _).
  pose proof (client_message_replies quiet 1%nat
                [("type", VStr "subscribe_ticket"); ("ticket_id", VInt 42)] one_channel)
    as (_ & _ & Hsub & _).
  pose proof (client_message_replies quiet 1%nat
                [("type", VStr "subscribe_ticket"); ("ticket_id", VInt 0)] one_channel)
    as (_ & _ & _ & Hskip & _).
  pose proof (client_message_replies quiet 1%nat [("type", VStr "hello")] one_channel)
    as (_ & _ & _ & _ & Hother).
  split; [|split; [|split]].
  - rewrite Hping by reflexivity. reflexivity.
  - rewrite Hsub by reflexivity. reflexivity.
  - apply Hskip; [reflexivity | left; reflexivity].
  - apply Hother; reflexivity.
Defined.

(** A registered channel that sends [subscribe_ticket] without a ticket id,
    or with the ticket id 0, gets no acknowledgement: nothing is sent. *)
Lemma subscribe_without_ticket_unanswered :
  websocket_users (manager one_channel) !! 1%nat = Some 7 /\
  wire (exec (handle_client_message quiet 1%nat
                [("type", VStr "subscribe_ticket")]) one_channel) = [] /\
  wire (exec (handle_client_message quiet 1%nat
                [("type", VStr "subscribe_ticket"); ("ticket_id", VInt 0)]) one_channel) = [].
Proof. repeat split; vm_compute; reflexivity. Qed.





End Multiplexer.

(** ** Facts about the executor *)

Module ExecFacts.
Import Model Orchestrator Notions.

Lemma stateless_ret {St A} (a : A) : stateless (ret (St := St) a).
Proof. by exists (Returned a). Qed.

Lemma stateless_raise {St A} (e : exn) : stateless (raise (St := St) (A := A) e).
Proof. by exists (Raised e). Qed.

Lemma stateless_call {A} (o : outcome A) : stateless (call o).
Proof. by exists o. Qed.

Lemma stateless_bind {St A B} (c : Aio St A) (k : A -> Aio St B) :
  stateless c -> (forall a, stateless (k a)) -> stateless (bind c k).
Proof.
  intros [[a|e] Hc] Hk.
  - destruct (Hk a) as [o Ho]. exists o. intros s. unfold bind. by rewrite Hc, Ho.
  - exists (Raised e). intros s. unfold bind. by rewrite Hc.
Qed.

Lemma stateless_for_acc {St X B} (xs : list X) (acc : B) (body : X -> B -> Aio St B) :
  (forall x b, stateless (body x b)) -> stateless (for_acc xs acc body).
Proof.
  intros Hbody. revert acc; induction xs as [|x xs IH]; intros acc; simpl.
  - apply stateless_ret.
  - apply stateless_bind; [apply Hbody | apply IH].
Qed.

Create HintDb stateless.
#[local] Hint Resolve stateless_ret stateless_raise stateless_call : stateless.

Lemma stateless_dispatch (caps : Capabilities) (t : Ticket) : stateless (dispatch caps t).
Proof.
  unfold dispatch.
  repeat match goal with |- context [if ?b then _ else _] => destruct b end.
  - unfold process_pr_review. destruct (negb _); auto with stateless.
    repeat (apply stateless_bind; [auto with stateless | intros ?]). auto with stateless.
  - unfold process_doc_analysis.
    apply stateless_bind.
    { apply stateless_for_acc. intros x b.
      apply stateless_bind; [auto with stateless | intros ?; auto with stateless]. }
    intros ?. apply stateless_bind; [auto with stateless | intros ?; auto with stateless].
  - unfold process_paper_writing.
    apply stateless_bind; [auto with stateless | intros ?; auto with stateless].
  - unfold process_snowflake_query. destruct (negb _); auto with stateless.
    apply stateless_bind; [auto with stateless | intros ?; auto with stateless].
  - unfold process_custom_task.
    apply stateless_bind; [auto with stateless | intros ?; auto with stateless].
  - auto with stateless.
Qed.

(** The handler's outcome does not depend on the state it runs in. *)
Lemma dispatch_run (caps : Capabilities) (t : Ticket) (w w0 : World) :
  dispatch caps t w = (result (dispatch caps t) w0, w).
Proof.
  destruct (stateless_dispatch caps t) as [o Ho]. unfold result. by rewrite !Ho.
Qed.


Lemma alter_found {A} (f : A -> A) (k : Z) (m : gmap Z A) (x : A) :
  m !! k = Some x -> alter f k m = <[k := f x]> m.
Proof.
  intros Hk. apply map_eq. intros j. destruct (decide (k = j)) as [->|Hne].
  - by rewrite lookup_alter_eq, lookup_insert_eq, Hk.
  - by rewrite lookup_alter_ne, lookup_insert_ne.
Qed.

Lemma assign_run (ticket_id : Z) (f : Ticket -> Ticket) (w : World) (t : Ticket) :
  tickets w !! ticket_id = Some t ->
  assign ticket_id f w =
  (Returned tt, set_tickets (<[ticket_id := f t]> (tickets w)) w).
Proof. intros Ht. unfold assign. by rewrite (alter_found _ _ _ t). Qed.

Lemma alter_insert_same {A} (f : A -> A) (k : Z) (m : gmap Z A) (x : A) :
  alter f k (<[k := x]> m) = <[k := f x]> m.
Proof.
  rewrite (alter_found f k _ x) by apply lookup_insert_eq. apply insert_insert_eq.
Qed.

(** Unfolds the plumbing of a computation on the store. *)
Ltac run_store :=
  unfold bind, try_except, db_get, assign, commit, utcnow, delay, ret, raise,
    set_tickets, set_audit_logs, set_celery_queue; simpl.

Lemma process_ticket_async_run (caps : Capabilities) (ticket_id : Z)
    (celery_task_id : string) (w : World) (t : Ticket) :
  tickets w !! ticket_id = Some t ->
  process_ticket_async caps ticket_id celery_task_id w =
  match result (dispatch caps (set_status PROCESSING t)) w with
  | Returned r =>
      (Returned (job_result ticket_id r),
       {| tickets := <[ticket_id := completed_ticket caps r (clock w) t]> (tickets w);
          audit_logs := audit_logs w ++
                        [started_entry caps t ticket_id celery_task_id (clock w);
                         completed_entry r ticket_id (clock w)];
          celery_queue := celery_queue w; clock := clock w; net := net w |})
  | Raised e =>
      (Raised e,
       {| tickets := <[ticket_id :=
                         set_error_message (Some (str_exn e))
                           (set_status FAILED (set_status PROCESSING t))]> (tickets w);
          audit_logs := audit_logs w ++
                        [started_entry caps t ticket_id celery_task_id (clock w);
                         failed_entry caps e ticket_id (clock w)];
          celery_queue := celery_queue w; clock := clock w; net := net w |})
  end.
Proof.
  intros Ht. unfold process_ticket_async, log_audit_event. run_store.
  rewrite Ht. simpl.
  match goal with |- context [dispatch caps ?t0 ?w0] =>
    rewrite (dispatch_run caps t0 w0 w) end.
  destruct (result (dispatch caps (set_status PROCESSING t)) w) as [r|e]; simpl.
  - rewrite (alter_found _ _ _ t Ht), !alter_insert_same, <- app_assoc. done.
  - rewrite (alter_found _ _ _ t Ht), !alter_insert_same, <- app_assoc. done.
Qed.

End ExecFacts.

(** ** The lifecycle and the executor: claims C1 to C5 *)

Module Lifecycle.
Import WS Model Orchestrator TicketProcessor Endpoints Notions Examples MuxFacts ExecFacts.

Lemma process_ticket_task_run (caps : Capabilities) (ticket_id : Z)
    (celery_task_id : string) (w : World) (t : Ticket) :
  tickets w !! ticket_id = Some t ->
  process_ticket_task caps ticket_id celery_task_id w =
  match result (dispatch caps (set_status PROCESSING t)) w with
  | Returned r =>
      (Returned (job_result ticket_id r),
       {| tickets := <[ticket_id := completed_ticket caps r (clock w) t]> (tickets w);
          audit_logs := audit_logs w ++
                        [started_entry caps t ticket_id celery_task_id (clock w);
                         completed_entry r ticket_id (clock w)];
          celery_queue := celery_queue w; clock := clock w; net := net w |})
  | Raised e =>
      (Raised e,
       {| tickets := <[ticket_id := failed_ticket e t]> (tickets w);
          audit_logs := audit_logs w ++
                        [started_entry caps t ticket_id celery_task_id (clock w);
                         failed_entry caps e ticket_id (clock w)];
          celery_queue := celery_queue w; clock := clock w; net := net w |})
  end.
Proof.
  intros Ht. unfold process_ticket_task, try_except.
  rewrite (process_ticket_async_run caps ticket_id celery_task_id w t Ht).
  destruct (result (dispatch caps (set_status PROCESSING t)) w) as [r|e]; [done|].
  unfold mark_ticket_failed. run_store. rewrite lookup_insert_eq. simpl.
  by rewrite !alter_insert_same.
Qed.

Lemma process_ticket_task_missing (caps : Capabilities) (ticket_id : Z)
    (celery_task_id : string) (w : World) :
  tickets w !! ticket_id = None ->
  exec (process_ticket_task caps ticket_id celery_task_id) w = w.
Proof.
  intros Ht. unfold exec, process_ticket_task, process_ticket_async, mark_ticket_failed.
  run_store. rewrite Ht. simpl. by rewrite Ht.
Qed.

Lemma reprocess_ticket_run (ticket_id : Z) (current_user : User) (w : World) (t : Ticket) :
  tickets w !! ticket_id = Some t ->
  role current_user = "admin" \/ created_by t = user_id current_user ->
  reprocess_ticket ticket_id current_user w =
  (Returned [("message", VStr "Ticket queued for reprocessing")],
   {| tickets :=
        <[ticket_id :=
            set_updated_at (clock w)
              (set_result_data [] (set_error_message None (set_status PENDING t)))]>
          (tickets w);
      audit_logs := audit_logs w;
      celery_queue := celery_queue w ++ [ticket_id];
      clock := clock w; net := net w |}).
Proof.
  intros Ht Hauth. unfold reprocess_ticket. run_store. rewrite Ht.
  assert (negb (String.eqb (role current_user) "admin")
          && negb (Z.eqb (created_by t) (user_id current_user)) = false) as ->.
  { destruct Hauth as [-> | ->]; [done|]. rewrite Z.eqb_refl. apply andb_false_r. }
  simpl. by rewrite (alter_found _ _ _ t Ht), !alter_insert_same.
Qed.


(** C1, as the code has it.  [reprocess_ticket] looks at no status: for a
    ticket in any status, called by its creator or an admin, it returns
    without error, resets the status to PENDING, clears the error text and
    the result payload, and enqueues a new job for the same ticket id. *)
Theorem reprocess_resets_from_any_status (ticket_id : Z) (current_user : User)
    (w : World) (t : Ticket) :
  tickets w !! ticket_id = Some t ->
  role current_user = "admin" \/ created_by t = user_id current_user ->
  let w' := exec (reprocess_ticket ticket_id current_user) w in
  result (reprocess_ticket ticket_id current_user) w =
    Returned [("message", VStr "Ticket queued for reprocessing")] /\
  (exists t',
      tickets w' !! ticket_id = Some t' /\
      status t' = PENDING /\ error_message t' = None /\ result_data t' = []) /\
  celery_queue w' = celery_queue w ++ [ticket_id].
Proof.
  intros Ht Hauth w'. subst w'. unfold exec, result.
  rewrite (reprocess_ticket_run ticket_id current_user w t Ht Hauth). simpl.
  split; [done|]. split; [|done].
  eexists. rewrite lookup_insert_eq. done.
Qed.

Lemma reprocess_resets_from_any_status_witness :
  celery_queue (exec (reprocess_ticket 1 owner) (world1 (ticket1 FAILED None) [])) = [1].
Proof.
  pose proof (reprocess_resets_from_any_status 1 owner (world1 (ticket1 FAILED None) [])
                (ticket1 FAILED None)) as H.
  destruct H as (_ & _ & Hq).
  - vm_compute. reflexivity.
  - right. reflexivity.
  - rewrite Hq. reflexivity.
Defined.

(** Reprocessing a ticket that is PENDING with its job still queued, or
    PROCESSING, is accepted: no error is raised, the record is rewritten and
    a second job is enqueued. *)
Lemma reprocess_accepted_while_in_flight :
  (result (reprocess_ticket 1 owner) (world1 (ticket1 PENDING None) [1]) =
     Returned [("message", VStr "Ticket queued for reprocessing")] /\
   celery_queue (exec (reprocess_ticket 1 owner) (world1 (ticket1 PENDING None) [1])) =
     [1; 1]) /\
  (result (reprocess_ticket 1 owner) (world1 (ticket1 PROCESSING None) []) =
     Returned [("message", VStr "Ticket queued for reprocessing")] /\
   status <$> tickets (exec (reprocess_ticket 1 owner)
                         (world1 (ticket1 PROCESSING None) [])) !! 1 = Some PENDING /\
   celery_queue (exec (reprocess_ticket 1 owner) (world1 (ticket1 PROCESSING None) [])) =
     [1]).
Proof. repeat split; vm_compute; reflexivity. Qed.

(** C2, as the code has it.  [process_ticket_task] applies no transition
    guard: whatever the status of the ticket it finds, it sets PROCESSING and
    runs the handler exactly as it does for a PENDING ticket, and the ticket
    ends COMPLETED or FAILED; a second delivery for a ticket already in
    PROCESSING is processed again. *)
Theorem job_run_has_no_transition_guard (caps : Capabilities) (ticket_id : Z)
    (celery_task_id : string) (w : World) (t : Ticket) (st : TicketStatus) :
  let found_in (st : TicketStatus) :=
    set_tickets (<[ticket_id := set_status st t]> (tickets w)) w in
  process_ticket_task caps ticket_id celery_task_id (found_in st) =
  process_ticket_task caps ticket_id celery_task_id (found_in PENDING) /\
  exists t',
    tickets (exec (process_ticket_task caps ticket_id celery_task_id) (found_in st))
      !! ticket_id = Some t' /\
    (status t' = COMPLETED \/ status t' = FAILED).
Proof.
  intros found_in.
  assert (forall st', tickets (found_in st') !! ticket_id = Some (set_status st' t)) as Hfound.
  { intros st'. unfold found_in; simpl. apply lookup_insert_eq. }
  split.
  - rewrite (process_ticket_task_run caps ticket_id celery_task_id _ _ (Hfound st)).
    rewrite (process_ticket_task_run caps ticket_id celery_task_id _ _ (Hfound PENDING)).
    unfold result.
    rewrite (dispatch_run caps _ (found_in st) w), (dispatch_run caps _ (found_in PENDING) w).
    unfold found_in; simpl.
    change (set_status PROCESSING (set_status st t)) with (set_status PROCESSING t).
    change (set_status PROCESSING (set_status PENDING t)) with (set_status PROCESSING t).
    destruct (result (dispatch caps (set_status PROCESSING t)) w) as [r|e];
      rewrite !insert_insert_eq; reflexivity.
  - unfold exec.
    rewrite (process_ticket_task_run caps ticket_id celery_task_id _ _ (Hfound st)).
    destruct (result _ _) as [r|e]; simpl; eexists; rewrite lookup_insert_eq;
      (split; [done|]); [by left | by right].
Qed.

(** A job delivered for a ticket that is already PROCESSING is not rejected:
    the handler runs, the job returns its result and the ticket becomes
    COMPLETED. *)
Lemma duplicate_delivery_is_processed :
  let w := world1 (ticket1 PROCESSING None) [] in
  result (process_ticket_task answering 1 "job-2") w =
    Returned (job_result 1 [("task_result", VStr "done"); ("tokens_used", VInt 12);
                            ("model_used", VStr "grok-3")]) /\
  status <$> tickets (exec (process_ticket_task answering 1 "job-2") w) !! 1 =
    Some COMPLETED /\
  map action (audit_logs (exec (process_ticket_task answering 1 "job-2") w)) =
    ["ai_processing_started"; "ai_processing_completed"].
Proof. repeat split; vm_compute; reflexivity. Qed.

(** C3. When the handler resolved for the ticket fails with an error [e],
    the job sets the status to FAILED, stores [str(e)] as the error text,
    appends an [ai_processing_failed] audit entry for the ticket with the
    error in its metadata, and raises [e] to the job queue. *)
Theorem failed_job_is_marked_audited_and_reraised (caps : Capabilities)
    (ticket_id : Z) (celery_task_id : string) (w : World) (t : Ticket) (e : exn) :
  tickets w !! ticket_id = Some t ->
  result (dispatch caps (set_status PROCESSING t)) w = Raised e ->
  let w' := exec (process_ticket_task caps ticket_id celery_task_id) w in
  result (process_ticket_task caps ticket_id celery_task_id) w = Raised e /\
  (exists t',
      tickets w' !! ticket_id = Some t' /\
      status t' = FAILED /\ error_message t' = Some (str_exn e)) /\
  (exists started failed,
      audit_logs w' = audit_logs w ++ [started; failed] /\
      action started = "ai_processing_started" /\
      action failed = "ai_processing_failed" /\
      entity_type failed = "ticket" /\ entity_id failed = ticket_id /\
      get (metadata failed) "error" = VStr (str_exn e)).
Proof.
  intros Ht He w'. subst w'. unfold exec, result in *.
  rewrite (process_ticket_task_run caps ticket_id celery_task_id w t Ht).
  unfold result. rewrite He. simpl.
  split; [done|]. split.
  - eexists. rewrite lookup_insert_eq. done.
  - do 2 eexists. split; [done|]. done.
Qed.

Lemma failed_job_is_marked_audited_and_reraised_witness :
  result (process_ticket_task out_of_quota 1 "job-1") (world1 (ticket1 PENDING None) []) =
    Raised (Exn "RateLimitError" "quota exceeded").
Proof.
  pose proof (failed_job_is_marked_audited_and_reraised out_of_quota 1 "job-1"
                (world1 (ticket1 PENDING None) []) (ticket1 PENDING None)
                (Exn "RateLimitError" "quota exceeded")) as H.
  destruct H as (Hres & _).
  - vm_compute. reflexivity.
  - vm_compute. reflexivity.
  - exact Hres.
Defined.


Lemma TicketStatus_of_completed (text : string) (member : TicketStatus) :
  TicketStatus_of text = Some member ->
  String.eqb text (status_value COMPLETED) = true <-> member = COMPLETED.
Proof.
  unfold TicketStatus_of. simpl.
  destruct (String.eqb text "pending") eqn:H1.
  { apply String.eqb_eq in H1 as ->. intros [= <-]. done. }
  destruct (String.eqb text "processing") eqn:H2.
  { apply String.eqb_eq in H2 as ->. intros [= <-]. done. }
  destruct (String.eqb text "completed") eqn:H3.
  { intros [= <-]. done. }
  destruct (String.eqb text "failed") eqn:H4.
  { intros [= <-]. done. }
  destruct (String.eqb text "cancelled") eqn:H5.
  { intros [= <-]. done. }
  done.
Qed.

(** C4, as the code has it.  After a job run, a reprocess or a status
    update, a ticket whose status is COMPLETED has its completion time set
    (given that it was so before); no operation ever clears the completion
    time: a ticket that is not COMPLETED afterwards keeps the completion time
    it had, so a FAILED ticket or a ticket reset to PENDING has none only if
    it had none before. *)
Theorem completion_time_set_never_cleared (o : mutation) (ticket_id : Z)
    (w : World) (t : Ticket) :
  tickets w !! ticket_id = Some t ->
  completion_stamped t ->
  exists t',
    tickets (exec (mutate o ticket_id) w) !! ticket_id = Some t' /\
    completion_stamped t' /\
    (status t' <> COMPLETED -> completed_at t' = completed_at t).
Proof.
  intros Ht Hinv. destruct o as [caps cid | user | fstring st rd]; unfold exec; simpl.
  - rewrite (process_ticket_task_run caps ticket_id cid w t Ht).
    destruct (result _ _) as [r|e]; simpl; eexists; rewrite lookup_insert_eq;
      (split; [done|]); split; try done.
    intros _. simpl. eauto.
  - unfold reprocess_ticket. run_store. rewrite Ht.
    destruct (negb _ && negb _); simpl.
    + exists t. done.
    + rewrite (alter_found _ _ _ t Ht), !alter_insert_same.
      eexists. rewrite lookup_insert_eq. split; [done|]. split; done.
  - unfold update_ticket_status_task, update_ticket_status_async. run_store. rewrite Ht.
    destruct (TicketStatus_of st) as [member|] eqn:Hst; simpl.
    2:{ exists t. done. }
    pose proof (TicketStatus_of_completed st member Hst) as Hdone.
    simpl in Hdone.
    destruct (String.eqb st "completed") eqn:Heq.
    + assert (member = COMPLETED) as -> by (by apply Hdone).
      destruct rd as [[|item rest]|]; simpl;
        rewrite (alter_found _ _ _ t Ht), !alter_insert_same;
        eexists; rewrite lookup_insert_eq; (split; [done|]);
        (split; [intros _; simpl; eauto | intros Hne; simpl in Hne; done]).
    + assert (member <> COMPLETED) as Hne.
      { intros Hm. apply Hdone in Hm. done. }
      destruct rd as [[|item rest]|]; simpl;
        rewrite (alter_found _ _ _ t Ht), ?alter_insert_same;
        eexists; rewrite lookup_insert_eq; (split; [done|]);
        (split; [intros Hs; simpl in Hs; done | intros _; done]).
Qed.

Lemma completion_time_set_never_cleared_witness :
  exists t',
    tickets (exec (mutate (StatusUpdate (fun _ => "text") "completed" None) 1)
               (world1 (ticket1 PROCESSING None) [])) !! 1 = Some t' /\
    completion_stamped t'.
Proof.
  pose proof (completion_time_set_never_cleared
                (StatusUpdate (fun _ => "text") "completed" None) 1
                (world1 (ticket1 PROCESSING None) []) (ticket1 PROCESSING None)) as H.
  destruct H as (t' & Ht' & Hst & _).
  - vm_compute. reflexivity.
  - unfold completion_stamped. simpl. discriminate.
  - exists t'. split; [exact Ht' | exact Hst].
Defined.

(** A COMPLETED ticket keeps its completion time when it is reset to PENDING
    by reprocess, when a status update marks it FAILED, and when the job run
    that follows the reset fails. *)
Lemma completion_time_survives :
  let w := world1 (ticket1 COMPLETED (Some 50)) [] in
  let after (c : Aio World dict) (w0 : World) :=
    (fun t => (status t, completed_at t)) <$> tickets (exec c w0) !! 1 in
  after (reprocess_ticket 1 owner) w = Some (PENDING, Some 50) /\
  after (update_ticket_status_task (fun _ => "text") 1 "failed" None) w =
    Some (FAILED, Some 50) /\
  after (process_ticket_task out_of_quota 1 "job-2") (exec (reprocess_ticket 1 owner) w) =
    Some (FAILED, Some 50).
Proof. repeat split; vm_compute; reflexivity. Qed.

Lemma process_ticket_task_net (caps : Capabilities) (ticket_id : Z)
    (celery_task_id : string) (w : World) :
  net (exec (process_ticket_task caps ticket_id celery_task_id) w) = net w.
Proof.
  destruct (tickets w !! ticket_id) as [t|] eqn:Ht.
  - unfold exec. rewrite (process_ticket_task_run caps ticket_id celery_task_id w t Ht).
    by destruct (result _ _).
  - by rewrite process_ticket_task_missing.
Qed.

(** C5, as the code has it.  A job run never touches the multiplexer: after
    either terminal transition the registry is as it was and nothing has been
    sent on any channel.  The notification exists as the separate operation
    [send_ticket_update]: called with the owner's identity, it puts a message
    of type [ticket_update] with the ticket's id on every channel of the
    owner whose send succeeds, and on no other channel. *)
Theorem job_run_sends_no_notification (caps : Capabilities) (ticket_id : Z)
    (celery_task_id : string) (w : World) (sf : WebSocket -> bool)
    (update_data : dict) (identity : Z) :
  identity <> 0 ->
  let w' := exec (process_ticket_task caps ticket_id celery_task_id) w in
  let s' := exec (send_ticket_update sf ticket_id update_data (Some identity)) (net w') in
  net w' = net w /\
  get (ticket_update ticket_id update_data) "type" = VStr "ticket_update" /\
  get (ticket_update ticket_id update_data) "ticket_id" = VInt ticket_id /\
  exists out,
    wire s' = wire (net w) ++ out /\
    forall ws m', (ws, m') ∈ out <->
                  m' = ticket_update ticket_id update_data /\
                  ws ∈ channels (manager (net w)) identity /\ sf ws = false.
Proof.
  intros Hid w' s'. subst s' w'. rewrite process_ticket_task_net.
  split; [done|]. split; [done|]. split; [done|].
  unfold send_ticket_update. simpl.
  assert (negb (Z.eqb identity 0) = true) as ->.
  { apply negb_true_iff. by apply Z.eqb_neq. }
  fold (ticket_update ticket_id update_data).
  destruct (sent_to_user sf (ticket_update ticket_id update_data) identity (net w))
    as (out & Hout & _ & Hmem).
  exists out. done.
Qed.


Lemma job_run_sends_no_notification_witness :
  wire (exec (send_ticket_update quiet 1 [] (Some 7))
          (net (exec (process_ticket_task answering 1 "job-1")
                  (world1 (ticket1 PENDING None) [])))) =
  [(1%nat, ticket_update 1 [])].
Proof.
  pose proof (job_run_sends_no_notification answering 1 "job-1"
                (world1 (ticket1 PENDING None) []) quiet [] 7) as H.
  destruct H as (Hnet & _).
  - discriminate.
  - rewrite Hnet. vm_compute. reflexivity.
Defined.

(** The owner of ticket 1 holds a live channel; the job completes, and a
    second job fails, yet nothing is sent on the channel. *)
Lemma terminal_transition_notifies_nobody :
  let w := world1 (ticket1 PENDING None) [] in
  let done := exec (process_ticket_task answering 1 "job-1") w in
  let failed := exec (process_ticket_task out_of_quota 1 "job-1") w in
  elements (channels (manager (net w)) 7) = [1%nat] /\
  (status <$> tickets done !! 1 = Some COMPLETED /\
   created_by <$> tickets done !! 1 = Some 7 /\ wire (net done) = []) /\
  (status <$> tickets failed !! 1 = Some FAILED /\ wire (net failed) = []).
Proof. repeat split; vm_compute; reflexivity. Qed.

End Lifecycle.

(** ** More about the multiplexer *)

Module MuxMore.
Import WS Notions Examples MuxFacts.

Lemma unregister_unregistered (w : WebSocket) (m : ConnectionManager) :
  websocket_users m !! w = None -> unregister w m = m.
Proof. intros Hw. unfold unregister. by rewrite Hw. Qed.

Lemma unregister_register (w : WebSocket) (u : Z) (m : ConnectionManager) :
  websocket_users m !! w = None ->
  w ∉ channels m u ->
  active_connections m !! u <> Some ∅ ->
  unregister w (register w u m) = m.
Proof.
  intros Hw Hin Hne. destruct m as [ac wu]. unfold unregister, register, channels in *.
  simpl in *. rewrite !lookup_insert_eq.
  assert ((default ∅ (ac !! u) ∪ {[w]}) ∖ {[w]} = default ∅ (ac !! u)) as -> by set_solver.
  f_equal.
  - destruct (ac !! u) as [ws|] eqn:Hu; simpl.
    + rewrite decide_False by congruence. rewrite insert_insert_eq. by apply insert_id.
    + rewrite decide_True by done. rewrite delete_insert_eq. by apply delete_id.
  - rewrite delete_insert_eq. by apply delete_id.
Qed.

Lemma register_users (w : WebSocket) (u : Z) (m : ConnectionManager) :
  websocket_users (register w u m) = <[w := u]> (websocket_users m).
Proof. done. Qed.

(** [connect] raises only when the handshake is refused, and then changes
    nothing.  Otherwise it registers the channel under the identity and sends
    the confirmation on that channel alone; if that send fails the channel is
    unregistered again.  No other channel is touched. *)
Theorem connect_registers_and_confirms (af sf : WebSocket -> bool)
    (websocket : WebSocket) (u : Z) (s : Net) :
  let s' := exec (connect af sf websocket u) s in
  (af websocket = true ->
   (exists e, result (connect af sf websocket u) s = Raised e) /\ s' = s) /\
  (af websocket = false -> result (connect af sf websocket u) s = Returned tt) /\
  (af websocket = false -> sf websocket = false ->
   websocket_users (manager s') !! websocket = Some u /\
   websocket ∈ channels (manager s') u /\
   wire s' = wire s ++ [(websocket, connection_confirmed u)]) /\
  (af websocket = false -> sf websocket = true ->
   websocket_users (manager s') !! websocket = None /\ wire s' = wire s) /\
  (forall w, w <> websocket ->
     websocket_users (manager s') !! w = websocket_users (manager s) !! w /\
     forall v, w ∈ channels (manager s') v <-> w ∈ channels (manager s) v).
Proof.
  intros s'. subst s'. unfold exec, result. rewrite connect_run.
  destruct (af websocket) eqn:Haf; cbn [fst snd].
  { repeat split; try done; eauto. }
  split; [done|]. split; [done|].
  destruct (sf websocket) eqn:Hsf; cbn [fst snd manager wire].
  - split; [done|]. split.
    + intros _ _. split; [|done]. rewrite unregister_users. apply lookup_delete_eq.
    + intros w Hw. rewrite unregister_users. rewrite lookup_delete_ne by done.
      rewrite register_users, lookup_insert_ne by done. split; [done|].
      intros v. rewrite unregister_channels, register_channels.
      destruct (decide (websocket_users (register websocket u (manager s)) !! websocket = Some v));
        destruct (decide (u = v)); set_solver.
  - split.
    + intros _ _. rewrite register_users, lookup_insert_eq.
      rewrite register_channels, decide_True by done. split; [done|]. split; [set_solver|done].
    + split; [done|]. intros w Hw. rewrite register_users, lookup_insert_ne by done.
      split; [done|].
      intros v. rewrite register_channels. destruct (decide (u = v)); set_solver.
Qed.

Lemma connect_registers_and_confirms_witness :
  websocket_users (manager (exec (connect quiet quiet 4%nat 8) three_channels)) !! 4%nat =
    Some 8 /\
  wire (exec (connect quiet quiet 4%nat 8) three_channels) =
    [(4%nat, connection_confirmed 8)].
Proof.
  pose proof (connect_registers_and_confirms quiet quiet 4%nat 8 three_channels)
    as (_ & _ & Hok & _).
  destruct Hok as (Hu & _ & Hw); [reflexivity | reflexivity |].
  split; [exact Hu | exact Hw].
Defined.

(** Connecting a channel that is not yet known and then disconnecting it
    restores the registry, whatever the transport did in between. *)
Theorem connect_then_disconnect_restores (af sf : WebSocket -> bool)
    (websocket : WebSocket) (u : Z) (s : Net) :
  websocket_users (manager s) !! websocket = None ->
  websocket ∉ channels (manager s) u ->
  active_connections (manager s) !! u <> Some ∅ ->
  manager (exec (disconnect websocket) (exec (connect af sf websocket u) s)) = manager s.
Proof.
  intros Hw Hin Hne. unfold exec. rewrite connect_run, disconnect_run.
  destruct (af websocket); simpl.
  - by apply unregister_unregistered.
  - destruct (sf websocket); simpl.
    + rewrite (unregister_register _ _ _ Hw Hin Hne). by apply unregister_unregistered.
    + by apply unregister_register.
Qed.

Lemma connect_then_disconnect_restores_witness :
  manager (exec (disconnect 4%nat) (exec (connect quiet quiet 4%nat 7) three_channels)) =
  manager three_channels.
Proof.
  apply (connect_then_disconnect_restores quiet quiet 4%nat 7 three_channels).
  - vm_compute. reflexivity.
  - vm_compute. discriminate.
  - vm_compute. discriminate.
Defined.


Lemma NoDup_targets_aux (m : ConnectionManager) (l : list (Z * gset WebSocket)) :
  consistent m ->
  NoDup (map fst l) ->
  (forall u ws, (u, ws) ∈ l -> active_connections m !! u = Some ws) ->
  NoDup (flat_map (fun item : Z * gset WebSocket => elements (snd item)) l).
Proof.
  intros Hc. induction l as [|[u ws] l IH]; intros Hnd Hl; simpl; [constructor|].
  apply NoDup_cons in Hnd as [Hu Hnd].
  apply NoDup_app. split; [apply NoDup_elements|]. split.
  - intros x Hx Hx'. apply elem_of_elements in Hx.
    apply list_elem_of_In, in_flat_map in Hx' as ([v ws'] & Hitem & Hin).
    apply list_elem_of_In in Hitem. apply list_elem_of_In, elem_of_elements in Hin.
    simpl in Hin.
    assert (websocket_users m !! x = Some u) as H1.
    { apply Hc. exists ws. split; [apply Hl; left | done]. }
    assert (websocket_users m !! x = Some v) as H2.
    { apply Hc. exists ws'. split; [apply Hl; by right | done]. }
    assert (u = v) as -> by congruence.
    apply Hu. simpl. apply (list_elem_of_fmap_2 fst _ (v, ws')). done.
  - apply IH; [done|]. intros v ws' Hin. apply Hl. by right.
Qed.

Lemma NoDup_targets (m : ConnectionManager) :
  consistent m ->
  NoDup (flat_map (fun item : Z * gset WebSocket => elements (snd item))
           (map_to_list (active_connections m))).
Proof.
  intros Hc. apply (NoDup_targets_aux m); [done | apply NoDup_fst_map_to_list |].
  intros u ws Hin. by apply elem_of_map_to_list.
Qed.

(** [broadcast_to_all] never raises.  It puts the message on every channel of
    every identity whose send succeeds and on no other channel, exactly once
    each when the two dictionaries agree; the channels whose send fails are
    disconnected, and no channel whose send succeeds is. *)
Theorem broadcast_isolates_failures (sf : WebSocket -> bool) (message : dict) (s : Net) :
  let s' := exec (broadcast_to_all sf message) s in
  let addressed w := exists u, w ∈ channels (manager s) u in
  result (broadcast_to_all sf message) s = Returned tt /\
  (exists out,
      wire s' = wire s ++ out /\
      (consistent (manager s) -> NoDup out) /\
      forall w m', (w, m') ∈ out <-> m' = message /\ addressed w /\ sf w = false) /\
  (forall w, addressed w -> sf w = true -> websocket_users (manager s') !! w = None) /\
  (forall w, ~ (addressed w /\ sf w = true) ->
     websocket_users (manager s') !! w = websocket_users (manager s) !! w /\
     forall v, w ∈ channels (manager s') v <-> w ∈ channels (manager s) v).
Proof.
  intros s' addressed. subst s'. unfold exec, result.
  rewrite broadcast_to_all_run. cbn [fst snd manager wire].
  split; [done|]. split; [|split].
  - eexists. split; [done|]. split.
    + intros Hc.
      assert (Inj eq eq (fun w : WebSocket => (w, message))) as Hinj
        by (intros ? ? [= ->]; done).
      apply (NoDup_fmap_2 (fun w : WebSocket => (w, message))).
      by apply NoDup_List_filter, NoDup_targets.
    + intros w m'. rewrite elem_of_sent, elem_of_targets. unfold addressed. tauto.
  - intros w Haddr Hsf. rewrite fold_unregister_users.
    rewrite decide_True; [done|].
    apply elem_of_List_filter. split; [by apply elem_of_targets | done].
  - intros w Hnot. split.
    + rewrite fold_unregister_users. rewrite decide_False; [done|].
      intros [Hin Hsf]%elem_of_List_filter. apply Hnot. split; [|done].
      by apply elem_of_targets.
    + intros v. rewrite fold_unregister_channels. split; [tauto|].
      intros Hin. split; [done|]. intros [[Ht Hsf]%elem_of_List_filter _].
      apply Hnot. split; [|done]. by apply elem_of_targets.
Qed.

Lemma broadcast_isolates_failures_witness :
  websocket_users
    (manager (exec (broadcast_to_all (Nat.eqb 1) [("type", VStr "x")]) three_channels))
    !! 1%nat = None /\
  websocket_users
    (manager (exec (broadcast_to_all (Nat.eqb 1) [("type", VStr "x")]) three_channels))
    !! 2%nat = Some 7.
Proof.
  pose proof (broadcast_isolates_failures (Nat.eqb 1) [("type", VStr "x")] three_channels)
    as (_ & _ & Hfail & Hlive).
  split.
  - apply Hfail; [|reflexivity]. exists 7. vm_compute. reflexivity.
  - destruct (Hlive 2%nat) as [Hu _].
    + intros [_ Hsf]. vm_compute in Hsf. discriminate.
    + rewrite Hu. vm_compute. reflexivity.
Defined.

(** No operation of the multiplexer raises, except [connect] when the
    handshake is refused: send failures never reach the caller. *)
Theorem only_refused_handshake_raises (o : operation) (s : Net) :
  (forall af sf w u, o = Connect af sf w u -> af w = false) ->
  result (perform o) s = Returned tt.
Proof.
  intros Hacc. unfold result.
  destruct o as [af sf w u|w|sf msg w|sf msg u|sf msg|sf tid upd u|sf tid st u det
                 |sf tid text u|sf w msg]; simpl.
  - rewrite connect_run, (Hacc af sf w u eq_refl). done.
  - by rewrite disconnect_run.
  - by rewrite send_personal_message_run.
  - by rewrite send_message_to_user_run.
  - by rewrite broadcast_to_all_run.
  - unfold send_ticket_update.
    destruct u as [u|]; [destruct (truthy (VInt u))|];
      by rewrite ?send_message_to_user_run, ?broadcast_to_all_run.
  - unfold send_processing_status. by rewrite send_message_to_user_run.
  - unfold send_error_notification. by rewrite send_message_to_user_run.
  - unfold handle_client_message.
    destruct (eq_str (get msg "type") "ping");
      [by rewrite send_personal_message_run|].
    destruct (eq_str (get msg "type") "subscribe_ticket"); [|done].
    unfold bind, self; simpl.
    destruct (truthy (get msg "ticket_id") && truthy_id (websocket_users (manager s) !! w));
      [by rewrite send_personal_message_run | done].
Qed.

Lemma only_refused_handshake_raises_witness :
  result (perform (Broadcast (fun _ => true) [("type", VStr "x")])) three_channels =
  Returned tt.
Proof.
  apply (only_refused_handshake_raises (Broadcast (fun _ => true) [("type", VStr "x")])).
  intros af sf w u H. discriminate H.
Defined.


Lemma reachable_invariant (ops : list operation) :
  connects_unregistered ops start ->
  consistent (manager (run_operations ops start)) /\
  no_empty_entry (manager (run_operations ops start)).
Proof.
  intros Hpre. apply run_operations_invariant; [| |done].
  - intros w u. simpl. rewrite lookup_empty. split; [done|].
    intros (ws & Hws & _). by rewrite lookup_empty in Hws.
  - intros u. simpl. by rewrite lookup_empty.
Qed.

Lemma three_channels_invariant :
  consistent (manager three_channels) /\ no_empty_entry (manager three_channels).
Proof.
  apply (reachable_invariant
           [Connect quiet quiet 1%nat 7; Connect quiet quiet 2%nat 7;
            Connect quiet quiet 3%nat 8]).
  vm_compute. repeat split; left; reflexivity.
Qed.

(** When no identity holds an empty set, as in every registry built by the
    operations, [get_connected_users] lists each identity with at least one
    channel, once, and nobody else. *)
Theorem connected_users_have_channels (m : ConnectionManager) :
  no_empty_entry m ->
  NoDup (get_connected_users m) /\
  forall u, u ∈ get_connected_users m <-> channels m u <> ∅.
Proof.
  intros Hn. unfold get_connected_users. split.
  - apply NoDup_fst_map_to_list.
  - intros u. unfold channels.
    change (map fst (map_to_list (active_connections m)))
      with ((map_to_list (active_connections m)).*1).
    rewrite list_elem_of_fmap. split.
    + intros ([v ws] & -> & Hin). apply elem_of_map_to_list in Hin. simpl.
      rewrite Hin. simpl. intros ->. by apply (Hn v).
    + intros Hne. destruct (active_connections m !! u) as [ws|] eqn:Hu; [|done].
      exists (u, ws). split; [done|]. by apply elem_of_map_to_list.
Qed.

Lemma connected_users_have_channels_witness :
  7 ∈ get_connected_users (manager three_channels) /\
  9 ∉ get_connected_users (manager three_channels).
Proof.
  destruct (connected_users_have_channels (manager three_channels)
              (proj2 three_channels_invariant)) as [_ Hiff].
  split.
  - apply Hiff. vm_compute. discriminate.
  - intros Hin. apply Hiff in Hin. apply Hin. vm_compute. reflexivity.
Defined.

(** In a registry whose dictionaries agree, disconnecting a registered
    channel lowers the connection count by exactly one, and a successful
    connect of an unregistered channel raises it by exactly one. *)
Theorem connection_count_steps (af sf : WebSocket -> bool) (websocket : WebSocket)
    (u : Z) (s : Net) :
  consistent (manager s) ->
  (is_Some (websocket_users (manager s) !! websocket) ->
   get_connection_count (manager s) =
   S (get_connection_count (manager (exec (disconnect websocket) s)))) /\
  (websocket_users (manager s) !! websocket = None ->
   af websocket = false -> sf websocket = false ->
   get_connection_count (manager (exec (connect af sf websocket u) s)) =
   S (get_connection_count (manager s))).
Proof.
  intros Hc. split.
  - intros [v Hv]. unfold exec. rewrite disconnect_run. cbn [snd manager].
    rewrite !consistent_count by (try apply consistent_unregister; done).
    rewrite unregister_users, map_size_delete, Hv. simpl.
    assert (size (websocket_users (manager s)) <> 0%nat); [|lia].
    intros H0%map_size_empty_inv. rewrite H0 in Hv. by rewrite lookup_empty in Hv.
  - intros Hw Haf Hsf. unfold exec. rewrite connect_run, Haf, Hsf. cbn [snd manager].
    rewrite !consistent_count; [| done | apply consistent_register; [done | by left]].
    rewrite register_users. by apply map_size_insert_None.
Qed.

Lemma connection_count_steps_witness :
  get_connection_count (manager three_channels) =
  S (get_connection_count (manager (exec (disconnect 2%nat) three_channels))).
Proof.
  destruct (connection_count_steps quiet quiet 2%nat 7 three_channels
              (proj1 three_channels_invariant)) as [Hdown _].
  apply Hdown. vm_compute. eauto.
Defined.

(** [send_processing_status] and [send_error_notification] put a message of
    their type, with the ticket id and the status or error text, on exactly
    the channels of the given identity whose send succeeds; absent or empty
    [details] are sent as an empty dictionary with no timestamp. *)
Theorem typed_notifications_reach_identity (sf : WebSocket -> bool) (ticket_id : Z)
    (text : string) (u : Z) (details : option dict) (s : Net) :
  (exists message out,
      wire (exec (send_processing_status sf ticket_id text u details) s) = wire s ++ out /\
      (forall w m', (w, m') ∈ out <->
                    m' = message /\ w ∈ channels (manager s) u /\ sf w = false) /\
      get message "type" = VStr "processing_status" /\
      get message "ticket_id" = VInt ticket_id /\
      get message "status" = VStr text /\
      (details = None \/ details = Some [] ->
       get message "details" = VDict [] /\ get message "timestamp" = VNone) /\
      (forall d, details = Some d -> d <> [] ->
       get message "details" = VDict d /\
       get message "timestamp" = get d "timestamp")) /\
  (exists message out,
      wire (exec (send_error_notification sf ticket_id text u) s) = wire s ++ out /\
      (forall w m', (w, m') ∈ out <->
                    m' = message /\ w ∈ channels (manager s) u /\ sf w = false) /\
      get message "type" = VStr "error_notification" /\
      get message "ticket_id" = VInt ticket_id /\
      get message "error" = VStr text /\
      get message "timestamp" = VNone).
Proof.
  split.
  - unfold send_processing_status.
    match goal with |- context [send_message_to_user sf ?m u] =>
      destruct (sent_to_user sf m u s) as (out & Hout & _ & Hmem); exists m, out end.
    split; [done|]. split; [done|]. split; [done|]. split; [done|]. split; [done|].
    split.
    + by intros [-> | ->].
    + intros d -> Hd. destruct d as [|item rest]; done.
  - unfold send_error_notification.
    match goal with |- context [send_message_to_user sf ?m u] =>
      destruct (sent_to_user sf m u s) as (out & Hout & _ & Hmem); exists m, out end.
    split; [done|]. split; [done|]. done.
Qed.

Lemma typed_notifications_reach_identity_witness :
  exists message,
    get message "details" = VDict [("timestamp", VInt 5)] /\
    get message "timestamp" = VInt 5.
Proof.
  pose proof (typed_notifications_reach_identity quiet 1 "running" 7
                (Some [("timestamp", VInt 5)]) three_channels)
    as [(message & out & _ & _ & _ & _ & _ & _ & Hd) _].
  exists message. apply (Hd [("timestamp", VInt 5)]); [reflexivity | discriminate].
Defined.

End MuxMore.

(** ** The push endpoint *)

Module SessionProps.
Import WS Notions Session MoreNotions Examples MuxFacts MuxMore.

Lemma handle_client_message_run (sf : WebSocket -> bool) (websocket : WebSocket)
    (message : dict) (s : Net) :
  handle_client_message sf websocket message s =
  (Returned tt,
   match reply_to (websocket_users (manager s) !! websocket) (Object message) with
   | [] => s
   | text :: _ =>
       if sf websocket
       then {| manager := unregister websocket (manager s); wire := wire s |}
       else {| manager := manager s; wire := wire s ++ [(websocket, text)] |}
   end).
Proof.
  unfold handle_client_message, reply_to.
  destruct (eq_str (get message "type") "ping").
  { by rewrite send_personal_message_run. }
  destruct (eq_str (get message "type") "subscribe_ticket"); [|done].
  unfold bind, self; simpl.
  destruct (truthy (get message "ticket_id") && truthy_id (websocket_users (manager s) !! websocket));
    [by rewrite send_personal_message_run | done].
Qed.

Lemma serve_run (sf : WebSocket -> bool) (websocket : WebSocket) (data : received)
    (s : Net) :
  serve sf websocket data s =
  (Returned tt,
   match reply_to (websocket_users (manager s) !! websocket) data with
   | [] => s
   | text :: _ =>
       if sf websocket
       then {| manager := unregister websocket (manager s); wire := wire s |}
       else {| manager := manager s; wire := wire s ++ [(websocket, text)] |}
   end).
Proof.
  unfold serve, try_except. destruct data as [message| |].
  - by rewrite handle_client_message_run.
  - unfold raise. simpl. by rewrite send_personal_message_run.
  - unfold raise. simpl. by rewrite send_personal_message_run.
Qed.

Lemma unregister_idempotent (w : WebSocket) (m : ConnectionManager) :
  unregister w (unregister w m) = unregister w m.
Proof. unfold unregister at 1. by rewrite unregister_users, lookup_delete_eq. Qed.

(** The receive loop returns, and touches the registry at most by
    disconnecting its own channel. *)
Lemma serve_loop_run (sf : WebSocket -> bool) (websocket : WebSocket)
    (texts : list received) (s : Net) :
  exists s1,
    for_each texts (serve sf websocket) s = (Returned tt, s1) /\
    (manager s1 = manager s \/ manager s1 = unregister websocket (manager s)).
Proof.
  revert s; induction texts as [|data texts IH]; intros s; simpl.
  - exists s. split; [done | by left].
  - unfold bind. rewrite serve_run.
    match goal with |- context [for_each texts _ ?s0] =>
      destruct (IH s0) as (s1 & Hrun & Hm); exists s1; split; [done|];
      assert (manager s0 = manager s \/ manager s0 = unregister websocket (manager s)) as H0
    end.
    { destruct (reply_to _ data); [by left|]. destruct (sf websocket); [by right | by left]. }
    destruct H0 as [H0|H0], Hm as [Hm|Hm]; rewrite Hm, H0;
      rewrite ?unregister_idempotent; auto.
Qed.

Lemma serve_loop_quiet (sf : WebSocket -> bool) (websocket : WebSocket)
    (texts : list received) (s : Net) :
  sf websocket = false ->
  for_each texts (serve sf websocket) s =
  (Returned tt,
   {| manager := manager s;
      wire := wire s ++
              map (fun text => (websocket, text))
                (flat_map (reply_to (websocket_users (manager s) !! websocket)) texts) |}).
Proof.
  intros Hsf. revert s; induction texts as [|data texts IH]; intros s; simpl.
  - unfold ret. by rewrite app_nil_r, net_eta.
  - unfold bind. rewrite serve_run, Hsf.
    destruct (reply_to (websocket_users (manager s) !! websocket) data) as [|text rest] eqn:Hr.
    + rewrite IH. done.
    + rewrite IH. simpl. rewrite <- app_assoc. simpl.
      assert (rest = []) as ->.
      { destruct data as [message| |]; simpl in Hr; try by injection Hr as _ <-.
        repeat match type of Hr with
               | context [if ?b then _ else _] => destruct b
               end; try done; by injection Hr as _ <-. }
      done.
Qed.

(** What the endpoint does once the user is authenticated and active. *)
Lemma session_run (af sf cf : WebSocket -> bool) (websocket : WebSocket) (u : Z)
    (texts : list received) (ending : exn) (s : Net) :
  af websocket = false ->
  exists s2,
    (connect af sf websocket u ;;;
     try_finally
       (try_except (for_each texts (serve sf websocket) ;;; raise ending)
                   (fun e => ret tt))
       (disconnect websocket)) s = (Returned tt, s2) /\
    manager s2 = unregister websocket (register websocket u (manager s)) /\
    (sf websocket = false ->
     wire s2 = wire s ++ (websocket, connection_confirmed u) ::
               map (fun text => (websocket, text)) (flat_map (reply_to (Some u)) texts)).
Proof.
  intros Haf. unfold bind at 1. rewrite connect_run, Haf.
  set (s1 := if sf websocket then _ else _).
  unfold try_finally, try_except, bind.
  destruct (serve_loop_run sf websocket texts s1) as (s1' & Hrun & Hm).
  rewrite Hrun. unfold raise, ret. rewrite disconnect_run.
  eexists. split; [done|]. cbn [manager wire]. split.
  - assert (manager s1 = register websocket u (manager s) \/
            manager s1 = unregister websocket (register websocket u (manager s))) as H1.
    { unfold s1. destruct (sf websocket); [by right | by left]. }
    destruct H1 as [H1|H1], Hm as [Hm|Hm]; rewrite Hm, H1;
      by rewrite ?unregister_idempotent.
  - intros Hsf. rewrite (serve_loop_quiet sf websocket texts s1 Hsf) in Hrun.
    injection Hrun as <-. unfold s1. rewrite Hsf. cbn [manager wire].
    rewrite register_users, lookup_insert_eq, <- app_assoc. done.
Qed.




(** For an authenticated, active user on a channel whose handshake and sends
    succeed, the endpoint returns, and what it sent is the confirmation
    followed, in order, by one reply per text that calls for one (pong,
    subscription confirmation, or an error for a text that is no JSON object),
    all on that channel. *)
Theorem session_transcript (af sf cf : WebSocket -> bool) (websocket : WebSocket)
    (user : Principal) (texts : list received) (ending : exn) (s : Net) :
  is_active user = true ->
  af websocket = false ->
  sf websocket = false ->
  result (websocket_endpoint af sf cf websocket (Returned (Some user)) texts ending) s =
    Returned tt /\
  wire (exec (websocket_endpoint af sf cf websocket (Returned (Some user)) texts ending) s) =
    wire s ++ (websocket, connection_confirmed (principal_id user)) ::
    map (fun text => (websocket, text))
      (flat_map (reply_to (Some (principal_id user))) texts).
Proof.
  intros Hact Haf Hsf.
  destruct (session_run af sf cf websocket (principal_id user) texts ending s Haf)
    as (s2 & Hrun & _ & Hwire).
  assert (websocket_endpoint af sf cf websocket (Returned (Some user)) texts ending s =
          (Returned tt, s2)) as Hep.
  { unfold websocket_endpoint. unfold try_except at 1. unfold bind at 1.
    rewrite Hact. cbn [negb]. cbv beta iota. by rewrite Hrun. }
  unfold exec, result. rewrite Hep. split; [done|]. by apply Hwire.
Qed.

Lemma session_transcript_witness :
  wire (exec (websocket_endpoint quiet quiet quiet 4%nat
                (Returned (Some {| principal_id := 7; is_active := true |}))
                [Object [("type", VStr "ping"); ("timestamp", VInt 3)];
                 Malformed; Object [("type", VStr "hello")]; NotObject]
                (Exn "WebSocketDisconnect" "")) three_channels) =
  [(4%nat, connection_confirmed 7);
   (4%nat, [("type", VStr "pong"); ("timestamp", VInt 3)]);
   (4%nat, invalid_json); (4%nat, processing_error)].
Proof.
  pose proof (session_transcript quiet quiet quiet 4%nat
                {| principal_id := 7; is_active := true |}
                [Object [("type", VStr "ping"); ("timestamp", VInt 3)];
                 Malformed; Object [("type", VStr "hello")]; NotObject]
                (Exn "WebSocketDisconnect" "") three_channels) as H.
  destruct H as [_ Hw]; [reflexivity | reflexivity | reflexivity |].
  rewrite Hw. reflexivity.
Defined.

(** A connection that is turned away -- the token names nobody or an
    inactive user, the token check raises, or the handshake is refused --
    registers nothing and sends nothing; the endpoint then raises only if
    closing the channel raises. *)
Theorem rejected_session_changes_nothing (af sf cf : WebSocket -> bool)
    (websocket : WebSocket) (authenticated : outcome (option Principal))
    (texts : list received) (ending : exn) (s : Net) :
  (authenticated = Returned None \/
   (exists e, authenticated = Raised e) \/
   (exists user, authenticated = Returned (Some user) /\
                 (is_active user = false \/ af websocket = true))) ->
  exec (websocket_endpoint af sf cf websocket authenticated texts ending) s = s /\
  (cf websocket = false ->
   result (websocket_endpoint af sf cf websocket authenticated texts ending) s =
   Returned tt) /\
  (cf websocket = true ->
   exists e, result (websocket_endpoint af sf cf websocket authenticated texts ending) s =
             Raised e).
Proof.
  intros Hrej.
  assert ((let (o, s') := close cf websocket s in
           match o with
           | Returned a => (Returned a, s')
           | Raised _ => close cf websocket s'
           end) = close cf websocket s) as Htwice.
  { unfold close. by destruct (cf websocket). }
  assert ((close cf websocket s).2 = s /\
          (cf websocket = false -> (close cf websocket s).1 = Returned tt) /\
          (cf websocket = true -> exists e, (close cf websocket s).1 = Raised e)) as Hclose.
  { unfold close. destruct (cf websocket); simpl; repeat split; try done; eauto. }
  assert (websocket_endpoint af sf cf websocket authenticated texts ending s =
          close cf websocket s) as Hep.
  { unfold websocket_endpoint. unfold try_except at 1. unfold bind at 1.
    destruct Hrej as [-> | [[e ->] | (user & -> & [Hact | Haf])]]; cbv beta iota.
    - done.
    - done.
    - rewrite Hact. cbn [negb]. cbv beta iota. done.
    - destruct (is_active user); cbn [negb]; cbv beta iota; [|done].
      unfold bind at 1. rewrite connect_run, Haf. done. }
  unfold exec, result. rewrite Hep. done.
Qed.

Lemma rejected_session_changes_nothing_witness :
  exec (websocket_endpoint quiet quiet quiet 4%nat
          (Returned (Some {| principal_id := 7; is_active := false |}))
          [Object [("type", VStr "ping")]] (Exn "WebSocketDisconnect" ""))
       three_channels = three_channels.
Proof.
  apply (rejected_session_changes_nothing quiet quiet quiet 4%nat
           (Returned (Some {| principal_id := 7; is_active := false |}))).
  right. right. eexists. split; [reflexivity|]. left. reflexivity.
Defined.

End SessionProps.

(** ** More about the executor and the ticket operations *)

Module ExecMore.
Import WS Model Orchestrator TicketProcessor Endpoints TicketApi Notions MoreNotions
  Examples ExecFacts Lifecycle.

(** When the handler returns a result, the job returns it, and the ticket is
    COMPLETED with that result as payload, the current time as completion
    time, the model name and the result's [tokens_used] (0 when it has none);
    the log gains a start entry carrying the job id and a completion entry.
    The error text is left as it was. *)
Theorem successful_job_completes (caps : Capabilities) (ticket_id : Z)
    (celery_task_id : string) (w : World) (t : Ticket) (r : dict) :
  tickets w !! ticket_id = Some t ->
  result (dispatch caps (set_status PROCESSING t)) w = Returned r ->
  let w' := exec (process_ticket_task caps ticket_id celery_task_id) w in
  result (process_ticket_task caps ticket_id celery_task_id) w =
    Returned [("status", VStr "completed"); ("ticket_id", VInt ticket_id);
              ("result", VDict r)] /\
  (exists t',
      tickets w' !! ticket_id = Some t' /\
      status t' = COMPLETED /\ result_data t' = r /\
      completed_at t' = Some (clock w) /\
      ai_model_used t' = Some (model_name caps) /\
      tokens_used t' = get_default r "tokens_used" (VInt 0) /\
      error_message t' = error_message t) /\
  (exists started completed,
      audit_logs w' = audit_logs w ++ [started; completed] /\
      action started = "ai_processing_started" /\
      get (metadata started) "celery_task_id" = VStr celery_task_id /\
      action completed = "ai_processing_completed" /\
      entity_id completed = ticket_id /\
      get (metadata completed) "tokens_used" = get_default r "tokens_used" (VInt 0)).
Proof.
  intros Ht Hr w'. subst w'. unfold exec, result in *.
  rewrite (process_ticket_task_run caps ticket_id celery_task_id w t Ht).
  unfold result. rewrite Hr. simpl.
  split; [done|]. split.
  - eexists. rewrite lookup_insert_eq. done.
  - do 2 eexists. done.
Qed.

Lemma successful_job_completes_witness :
  status <$> tickets (exec (process_ticket_task answering 1 "job-1")
                        (world1 (ticket1 PENDING None) [])) !! 1 = Some COMPLETED.
Proof.
  pose proof (successful_job_completes answering 1 "job-1"
                (world1 (ticket1 PENDING None) []) (ticket1 PENDING None)
                [("task_result", VStr "done"); ("tokens_used", VInt 12);
                 ("model_used", VStr "grok-3")]) as H.
  destruct H as (_ & (t' & Ht' & Hst & _) & _).
  - vm_compute. reflexivity.
  - vm_compute. reflexivity.
  - rewrite Ht'. simpl. by rewrite Hst.
Defined.

(** A job for a ticket id that has no row raises [ValueError] and leaves the
    store, the log and the queue as they were: no row is created, nothing is
    logged. *)
Theorem job_for_missing_ticket (caps : Capabilities) (ticket_id : Z)
    (celery_task_id : string) (w : World) :
  tickets w !! ticket_id = None ->
  result (process_ticket_task caps ticket_id celery_task_id) w =
    Raised (ValueError (fstring caps [Lit "Ticket "; Interp (VInt ticket_id);
                                      Lit " not found"])) /\
  exec (process_ticket_task caps ticket_id celery_task_id) w = w.
Proof.
  intros Ht. split; [|by apply process_ticket_task_missing].
  unfold result, process_ticket_task, process_ticket_async, mark_ticket_failed.
  run_store. rewrite Ht. simpl. by rewrite Ht.
Qed.

Lemma job_for_missing_ticket_witness :
  exec (process_ticket_task answering 2 "job-1") (world1 (ticket1 PENDING None) []) =
  world1 (ticket1 PENDING None) [].
Proof.
  apply (job_for_missing_ticket answering 2 "job-1" (world1 (ticket1 PENDING None) [])).
  vm_compute. reflexivity.
Defined.

Lemma world_eta (w : World) :
  {| tickets := tickets w; audit_logs := audit_logs w; celery_queue := celery_queue w;
     clock := clock w; net := net w |} = w.
Proof. by destruct w. Qed.

Lemma reprocess_ticket_refused (ticket_id : Z) (current_user : User) (w : World) :
  tickets w !! ticket_id = None \/
  (exists t, tickets w !! ticket_id = Some t /\
             role current_user <> "admin" /\ created_by t <> user_id current_user) ->
  exists e, reprocess_ticket ticket_id current_user w = (Raised e, w).
Proof.
  unfold reprocess_ticket. run_store. intros [Ht | (t & Ht & Hrole & Hown)]; rewrite Ht.
  - eauto.
  - assert (String.eqb (role current_user) "admin" = false) as ->
      by (by apply String.eqb_neq).
    assert (Z.eqb (created_by t) (user_id current_user) = false) as ->
      by (by apply Z.eqb_neq).
    simpl. eauto.
Qed.

Lemma reprocess_cases (ticket_id : Z) (current_user : User) (w : World) :
  (exists e, reprocess_ticket ticket_id current_user w = (Raised e, w)) \/
  (exists t, tickets w !! ticket_id = Some t /\
             (role current_user = "admin" \/ created_by t = user_id current_user)).
Proof.
  destruct (tickets w !! ticket_id) as [t|] eqn:Ht.
  - destruct (decide (role current_user = "admin")) as [Hr|Hr]; [right; eauto|].
    destruct (decide (created_by t = user_id current_user)) as [Ho|Ho]; [right; eauto|].
    left. apply reprocess_ticket_refused. right. eauto.
  - left. apply reprocess_ticket_refused. by left.
Qed.

Lemma update_status_run (fs : list fragment -> string) (ticket_id : Z) (text : string)
    (rd : option dict) (w : World) (t : Ticket) (member : TicketStatus) :
  tickets w !! ticket_id = Some t ->
  TicketStatus_of text = Some member ->
  update_ticket_status_async fs ticket_id text rd w =
  (Returned [("ticket_id", VInt ticket_id); ("status", VStr text);
             ("updated_at", VInt (clock w))],
   {| tickets :=
        <[ticket_id :=
            (if String.eqb text "completed" then set_completed_at (Some (clock w))
             else fun t0 => t0)
              ((match rd with
                | Some (item :: rest) => set_result_data (item :: rest)
                | _ => fun t0 => t0
                end)
                 (set_updated_at (clock w) (set_status member t)))]> (tickets w);
      audit_logs := audit_logs w; celery_queue := celery_queue w;
      clock := clock w; net := net w |}).
Proof.
  intros Ht Hst. unfold update_ticket_status_async. run_store. rewrite Ht, Hst. simpl.
  destruct rd as [[|item rest]|]; simpl; destruct (String.eqb text "completed"); simpl;
    by rewrite (alter_found _ _ _ t Ht), ?alter_insert_same.
Qed.

Lemma update_status_refused (fs : list fragment -> string) (ticket_id : Z) (text : string)
    (rd : option dict) (w : World) :
  tickets w !! ticket_id = None \/ TicketStatus_of text = None ->
  exists msg, update_ticket_status_async fs ticket_id text rd w = (Raised (ValueError msg), w).
Proof.
  unfold update_ticket_status_async. run_store. intros [Ht | Hst].
  - rewrite Ht. eauto.
  - destruct (tickets w !! ticket_id); [rewrite Hst|]; eauto.
Qed.


(** The audit log is append-only under every operation that writes a
    ticket.  A job run on an existing ticket appends exactly two entries for
    that ticket, a start entry and then one terminal entry, completed or
    failed; a job for a missing ticket, a reprocess and a status update
    append nothing. *)
Theorem audit_log_append_only (o : mutation) (ticket_id : Z) (w : World) :
  exists added,
    audit_logs (exec (mutate o ticket_id) w) = audit_logs w ++ added /\
    match o with
    | JobRun _ _ =>
        (tickets w !! ticket_id = None /\ added = []) \/
        (exists started terminal,
            is_Some (tickets w !! ticket_id) /\
            added = [started; terminal] /\
            action started = "ai_processing_started" /\
            (action terminal = "ai_processing_completed" \/
             action terminal = "ai_processing_failed") /\
            entity_id started = ticket_id /\ entity_id terminal = ticket_id)
    | _ => added = []
    end.
Proof.
  destruct o as [caps cid | user | fs st rd]; unfold exec; simpl.
  - destruct (tickets w !! ticket_id) as [t|] eqn:Ht.
    + rewrite (process_ticket_task_run caps ticket_id cid w t Ht).
      destruct (result _ _) as [r|e]; simpl; eexists; (split; [done|]); right;
        do 2 eexists; (split; [by eauto|]); (split; [done|]); (split; [done|]);
        (split; [|done]); [by left | by right].
    + pose proof (process_ticket_task_missing caps ticket_id cid w Ht) as Hm.
      unfold exec in Hm. rewrite Hm. exists []. rewrite app_nil_r. split; [done|].
      by left.
  - exists []. rewrite app_nil_r. split; [|done].
    destruct (reprocess_cases ticket_id user w) as [[e He] | (t & Ht & Hauth)].
    + by rewrite He.
    + by rewrite (reprocess_ticket_run ticket_id user w t Ht Hauth).
  - exists []. rewrite app_nil_r. split; [|done].
    unfold update_ticket_status_task.
    destruct (tickets w !! ticket_id) as [t|] eqn:Ht;
      [destruct (TicketStatus_of st) as [member|] eqn:Hst|].
    + by rewrite (update_status_run fs ticket_id st rd w t member Ht Hst).
    + destruct (update_status_refused fs ticket_id st rd w) as [msg ->]; [by right | done].
    + destruct (update_status_refused fs ticket_id st rd w) as [msg ->]; [by left | done].
Qed.

(** Every operation that writes a ticket touches the row of that ticket
    only: the other rows, the clock and the connection registry stay as they
    were, no row is created for an id that has none, and the job queue is
    left alone except by a reprocess, which appends that ticket id once.  In
    particular a job run never enqueues a job. *)
Theorem mutation_touches_one_ticket (o : mutation) (ticket_id : Z) (w : World) :
  let w' := exec (mutate o ticket_id) w in
  same_but_ticket ticket_id w w' /\
  (tickets w !! ticket_id = None -> w' = w) /\
  (celery_queue w' = celery_queue w \/
   (exists user, o = Reprocess user) /\ celery_queue w' = celery_queue w ++ [ticket_id]).
Proof.
  intros w'. subst w'. unfold same_but_ticket.
  destruct o as [caps cid | user | fs st rd]; unfold exec; simpl.
  - destruct (tickets w !! ticket_id) as [t|] eqn:Ht.
    + rewrite (process_ticket_task_run caps ticket_id cid w t Ht).
      destruct (result _ _) as [r|e]; simpl;
        (split; [split; [intros other Hne; by rewrite lookup_insert_ne | done] |]);
        (split; [done | by left]).
    + pose proof (process_ticket_task_missing caps ticket_id cid w Ht) as Hm.
      unfold exec in Hm. rewrite Hm. split; [done|]. split; [done | by left].
  - destruct (reprocess_cases ticket_id user w) as [[e He] | (t & Ht & Hauth)].
    + rewrite He. simpl. split; [done|]. split; [done | by left].
    + rewrite (reprocess_ticket_run ticket_id user w t Ht Hauth). simpl.
      split; [split; [intros other Hne; by rewrite lookup_insert_ne | done] |].
      split; [by rewrite Ht | right; eauto].
  - unfold update_ticket_status_task.
    destruct (tickets w !! ticket_id) as [t|] eqn:Ht;
      [destruct (TicketStatus_of st) as [member|] eqn:Hst|].
    + rewrite (update_status_run fs ticket_id st rd w t member Ht Hst). simpl.
      split; [split; [intros other Hne; by rewrite lookup_insert_ne | done] |].
      split; [done | by left].
    + destruct (update_status_refused fs ticket_id st rd w) as [msg ->]; [by right |].
      simpl. split; [done|]. split; [done | by left].
    + destruct (update_status_refused fs ticket_id st rd w) as [msg ->]; [by left |].
      simpl. split; [done|]. split; [done | by left].
Qed.

Lemma mutation_touches_one_ticket_witness :
  exec (mutate (Reprocess owner) 2) (world1 (ticket1 FAILED None) []) =
  world1 (ticket1 FAILED None) [].
Proof.
  pose proof (mutation_touches_one_ticket (Reprocess owner) 2
                (world1 (ticket1 FAILED None) [])) as (_ & Hmissing & _).
  apply Hmissing. vm_compute. reflexivity.
Defined.


Lemma failed_job_run (caps : Capabilities) (ticket_id : Z) (celery_task_id : string)
    (w : World) (t : Ticket) (e : exn) :
  tickets w !! ticket_id = Some t ->
  (forall w0, result (dispatch caps (set_status PROCESSING t)) w0 = Raised e) ->
  result (process_ticket_task caps ticket_id celery_task_id) w = Raised e /\
  exists t',
    tickets (exec (process_ticket_task caps ticket_id celery_task_id) w) !! ticket_id =
      Some t' /\
    status t' = FAILED /\ error_message t' = Some (str_exn e) /\
    result_data t' = result_data t /\ completed_at t' = completed_at t.
Proof.
  intros Ht He. unfold exec, result in *.
  rewrite (process_ticket_task_run caps ticket_id celery_task_id w t Ht).
  unfold result. rewrite He. simpl. split; [done|].
  eexists. rewrite lookup_insert_eq. done.
Qed.

(** A review ticket without a (truthy) [pr_url], and a query ticket without
    a (truthy) [query_request], fail before any collaborator is consulted:
    whatever the collaborators would answer, the job raises the [ValueError]
    that names the required field and the ticket is FAILED with that text as
    its error text. *)
Theorem missing_required_field_fails_job (caps : Capabilities) (ticket_id : Z)
    (celery_task_id : string) (w : World) (t : Ticket) :
  tickets w !! ticket_id = Some t ->
  (task_type t = PR_REVIEW /\ truthy (get (task_data t) "pr_url") = false) \/
  (task_type t = SNOWFLAKE_QUERY /\ truthy (get (task_data t) "query_request") = false) ->
  let text :=
    if String.eqb (task_type t) PR_REVIEW
    then "PR URL is required for PR review task"
    else "Query request is required for Snowflake task" in
  result (process_ticket_task caps ticket_id celery_task_id) w = Raised (ValueError text) /\
  exists t',
    tickets (exec (process_ticket_task caps ticket_id celery_task_id) w) !! ticket_id =
      Some t' /\
    status t' = FAILED /\ error_message t' = Some text.
Proof.
  intros Ht Hcase text.
  assert (forall w0, result (dispatch caps (set_status PROCESSING t)) w0 =
                     Raised (ValueError text)) as He.
  { intros w0. unfold result, dispatch, text. simpl.
    destruct Hcase as [[-> Hv] | [-> Hv]]; simpl.
    - unfold process_pr_review. simpl. by rewrite Hv.
    - unfold process_snowflake_query. simpl. by rewrite Hv. }
  destruct (failed_job_run caps ticket_id celery_task_id w t _ Ht He)
    as (Hres & t' & Ht' & Hst & Herr & _).
  split; [done|]. by exists t'.
Qed.

Lemma missing_required_field_fails_job_witness :
  result (process_ticket_task answering 1 "job-1")
    (store_of (ticket_of SNOWFLAKE_QUERY [] [])) =
  Raised (ValueError "Query request is required for Snowflake task").
Proof.
  pose proof (missing_required_field_fails_job answering 1 "job-1"
                (store_of (ticket_of SNOWFLAKE_QUERY [] []))
                (ticket_of SNOWFLAKE_QUERY [] [])) as H.
  destruct H as [Hres _].
  - vm_compute. reflexivity.
  - right. split; reflexivity.
  - exact Hres.
Defined.









(** Looking a status up by its value gives the status back, and only the
    five values name a status: the text of a status found by value is the
    value of that status. *)
Theorem status_value_round_trip (member : TicketStatus) (text : string) :
  TicketStatus_of (status_value member) = Some member /\
  (TicketStatus_of text = Some member -> text = status_value member).
Proof.
  split; [by destruct member|].
  unfold TicketStatus_of.
  repeat match goal with
         | |- context [String.eqb text ?c] =>
             destruct (String.eqb text c) eqn:?
         end;
    intros [= <-]; try done;
    match goal with H : String.eqb _ _ = true |- _ => by apply String.eqb_eq in H end.
Qed.

Lemma status_value_round_trip_witness :
  "failed" = status_value FAILED.
Proof.
  apply (status_value_round_trip FAILED "failed"). reflexivity.
Defined.

(** The status task refuses a ticket id without a row and a text that names
    no status: it raises [ValueError] and nothing at all has changed. *)
Theorem status_update_refusals (fs : list fragment -> string) (ticket_id : Z)
    (text : string) (rd : option dict) (w : World) :
  tickets w !! ticket_id = None \/
  text ∉ ["pending"; "processing"; "completed"; "failed"; "cancelled"] ->
  (exists msg,
      result (update_ticket_status_task fs ticket_id text rd) w =
      Raised (ValueError msg)) /\
  exec (update_ticket_status_task fs ticket_id text rd) w = w.
Proof.
  intros Hcase.
  destruct (update_status_refused fs ticket_id text rd w) as [msg Hrun].
  { destruct Hcase as [Ht | Htext]; [by left | right].
    destruct (TicketStatus_of text) as [member|] eqn:Hst; [|done].
    exfalso. apply Htext.
    rewrite (proj2 (status_value_round_trip member text) Hst).
    destruct member; set_solver. }
  unfold update_ticket_status_task, exec, result. rewrite Hrun. eauto.
Qed.

Lemma status_update_refusals_witness :
  exec (update_ticket_status_task (fun _ => "text") 1 "done" None)
    (world1 (ticket1 PROCESSING None) []) = world1 (ticket1 PROCESSING None) [].
Proof.
  apply (status_update_refusals (fun _ => "text") 1 "done" None).
  right. intros H. repeat (apply elem_of_cons in H as [H|H]; [discriminate H|]).
  by apply elem_of_nil in H.
Defined.

(** On an existing ticket and a text that names a status, the status task
    sets that status (from any status whatever) and the update time, stamps
    the completion time exactly when the status is COMPLETED, replaces the
    result payload only when a non-empty one is given (an absent or empty
    payload leaves the stored one), and leaves the error text alone. *)
Theorem status_update_effects (fs : list fragment -> string) (ticket_id : Z)
    (member : TicketStatus) (rd : option dict) (w : World) (t : Ticket) :
  tickets w !! ticket_id = Some t ->
  let text := status_value member in
  let w' := exec (update_ticket_status_task fs ticket_id text rd) w in
  result (update_ticket_status_task fs ticket_id text rd) w =
    Returned [("ticket_id", VInt ticket_id); ("status", VStr text);
              ("updated_at", VInt (clock w))] /\
  exists t',
    tickets w' !! ticket_id = Some t' /\
    status t' = member /\ updated_at t' = clock w /\
    completed_at t' =
      (if decide (member = COMPLETED) then Some (clock w) else completed_at t) /\
    result_data t' =
      match rd with
      | Some (item :: rest) => item :: rest
      | _ => result_data t
      end /\
    error_message t' = error_message t.
Proof.
  intros Ht text w'. subst w'. unfold update_ticket_status_task, exec, result.
  assert (TicketStatus_of text = Some member) as Hst
    by exact (proj1 (status_value_round_trip member "")).
  rewrite (update_status_run fs ticket_id text rd w t member Ht Hst). simpl.
  split; [done|]. eexists. rewrite lookup_insert_eq. split; [done|].
  unfold text. destruct member; destruct rd as [[|item rest]|]; simpl; done.
Qed.

Lemma status_update_effects_witness :
  exists t',
    tickets (exec (update_ticket_status_task (fun _ => "text") 1 "cancelled" (Some []))
               (world1 (ticket1 PROCESSING None) [])) !! 1 = Some t' /\
    status t' = CANCELLED.
Proof.
  pose proof (status_update_effects (fun _ => "text") 1 CANCELLED (Some [])
                (world1 (ticket1 PROCESSING None) []) (ticket1 PROCESSING None)) as H.
  destruct H as (_ & t' & Ht' & Hst & _).
  - vm_compute. reflexivity.
  - exists t'. split; [exact Ht' | exact Hst].
Defined.

(** [reprocess_ticket] refuses a ticket id without a row, and a caller who
    is neither admin nor the ticket's creator (its assignee included): it
    raises and nothing has changed, in particular no job is enqueued. *)
Theorem reprocess_refusals (ticket_id : Z) (current_user : User) (w : World) :
  tickets w !! ticket_id = None \/
  (exists t, tickets w !! ticket_id = Some t /\
             role current_user <> "admin" /\ created_by t <> user_id current_user) ->
  (exists e, result (reprocess_ticket ticket_id current_user) w = Raised e /\
             exn_class e = "HTTPException") /\
  exec (reprocess_ticket ticket_id current_user) w = w.
Proof.
  intros Hcase. unfold exec, result, reprocess_ticket. run_store.
  destruct Hcase as [Ht | (t & Ht & Hrole & Hown)]; rewrite Ht.
  - split; [eexists; split; done | done].
  - assert (String.eqb (role current_user) "admin" = false) as ->
      by (by apply String.eqb_neq).
    assert (Z.eqb (created_by t) (user_id current_user) = false) as ->
      by (by apply Z.eqb_neq).
    simpl. split; [eexists; split; done | done].
Qed.

Lemma reprocess_refusals_witness :
  exec (reprocess_ticket 1 {| user_id := 9; role := "user" |})
    (store_of (ticket_of CUSTOM [] [])) = store_of (ticket_of CUSTOM [] []).
Proof.
  apply (reprocess_refusals 1 {| user_id := 9; role := "user" |}).
  right. exists (ticket_of CUSTOM [] []). split; [vm_compute; reflexivity|].
  split; discriminate.
Defined.




(** [create_ticket] stores, under the new key, a ticket that is PENDING with
    an empty result payload, no error text and no completion time, created by
    the caller at the current time, and enqueues one job for it; it writes no
    other row and no audit entry.  The job then finds the ticket: run next,
    it leaves the ticket COMPLETED or FAILED. *)
Theorem created_ticket_is_pending_and_queued (new_id : Z) (body : TicketCreate)
    (current_user : User) (caps : Capabilities) (celery_task_id : string) (w : World) :
  tickets w !! new_id = None ->
  let w' := exec (create_ticket new_id body current_user) w in
  (exists t,
      result (create_ticket new_id body current_user) w = Returned t /\
      tickets w' !! new_id = Some t /\
      status t = PENDING /\ result_data t = [] /\ error_message t = None /\
      completed_at t = None /\ created_by t = user_id current_user /\
      created_at t = clock w /\ task_type t = new_task_type body /\
      task_data t = new_task_data body) /\
  (forall other, other <> new_id -> tickets w' !! other = tickets w !! other) /\
  celery_queue w' = celery_queue w ++ [new_id] /\
  audit_logs w' = audit_logs w /\
  (exists t',
      tickets (exec (process_ticket_task caps new_id celery_task_id) w') !! new_id =
        Some t' /\
      (status t' = COMPLETED \/ status t' = FAILED)).
Proof.
  intros Hnew w'. subst w'. unfold exec, result, create_ticket. run_store.
  split; [|split; [|split; [|split]]].
  - eexists. rewrite lookup_insert_eq. done.
  - intros other Hne. by rewrite lookup_insert_ne.
  - done.
  - done.
  - match goal with |- context [process_ticket_task caps new_id celery_task_id ?w0] =>
      erewrite (process_ticket_task_run caps new_id celery_task_id w0)
        by (simpl; apply lookup_insert_eq)
    end.
    destruct (result _ _) as [r|e]; simpl; eexists; rewrite lookup_insert_eq;
      (split; [done|]); [by left | by right].
Qed.

Lemma created_ticket_is_pending_and_queued_witness :
  celery_queue
    (exec (create_ticket 2 {| new_title := "t"; new_description := "";
                              new_task_type := CUSTOM; new_priority := "medium";
                              new_task_data := [] |} owner)
       (world1 (ticket1 COMPLETED (Some 50)) [])) = [2].
Proof.
  pose proof (created_ticket_is_pending_and_queued 2
                {| new_title := "t"; new_description := "";
                   new_task_type := CUSTOM; new_priority := "medium";
                   new_task_data := [] |} owner answering "job-1"
                (world1 (ticket1 COMPLETED (Some 50)) [])) as H.
  destruct H as (_ & _ & Hq & _).
  - vm_compute. reflexivity.
  - rewrite Hq. reflexivity.
Defined.

(** [get_ticket] never changes anything.  It returns the ticket exactly to
    an admin, the ticket's creator and its assignee; anyone else, and any
    request for an id without a row, gets an error. *)
Theorem get_ticket_visibility (ticket_id : Z) (current_user : User) (w : World) :
  exec (get_ticket ticket_id current_user) w = w /\
  (forall t,
      result (get_ticket ticket_id current_user) w = Returned t <->
      tickets w !! ticket_id = Some t /\
      (role current_user = "admin" \/ created_by t = user_id current_user \/
       assigned_to t = Some (user_id current_user))) /\
  (tickets w !! ticket_id = None ->
   result (get_ticket ticket_id current_user) w = Raised (HTTPException "Ticket not found")).
Proof.
  unfold exec, result, get_ticket. run_store.
  destruct (tickets w !! ticket_id) as [t0|] eqn:Ht; simpl.
  2:{ split; [done|]. split; [|done]. intros t. split; [done | by intros [? _]]. }
  destruct (String.eqb (role current_user) "admin") eqn:Hrole; simpl.
  { apply String.eqb_eq in Hrole. split; [done|]. split; [|done].
    intros t. split; [intros [= <-]; eauto | by intros [[= <-] _]]. }
  apply String.eqb_neq in Hrole.
  destruct (Z.eqb (created_by t0) (user_id current_user)) eqn:Hown; simpl.
  { apply Z.eqb_eq in Hown. split; [done|]. split; [|done].
    intros t. split; [intros [= <-]; eauto | by intros [[= <-] _]]. }
  apply Z.eqb_neq in Hown.
  destruct (bool_decide (assigned_to t0 = Some (user_id current_user))) eqn:Has; simpl.
  { apply bool_decide_eq_true in Has. split; [done|]. split; [|done].
    intros t. split; [intros [= <-]; eauto | by intros [[= <-] _]]. }
  apply bool_decide_eq_false in Has.
  split; [done|]. split; [|done].
  intros t. split; [done|]. intros [[= <-] [? | [? | ?]]]; done.
Qed.

(** [delete_ticket] refuses a missing id and a caller who is neither admin
    nor creator, changing nothing.  Otherwise it removes that row and no
    other, and leaves the log and the job queue alone; a job still queued
    for the deleted ticket then raises and creates no row. *)
Theorem deleted_ticket_is_gone_for_jobs (ticket_id : Z) (current_user : User)
    (caps : Capabilities) (celery_task_id : string) (w : World) (t : Ticket) :
  tickets w !! ticket_id = Some t ->
  let w' := exec (delete_ticket ticket_id current_user) w in
  (role current_user <> "admin" -> created_by t <> user_id current_user ->
   w' = w /\ exists e, result (delete_ticket ticket_id current_user) w = Raised e) /\
  (role current_user = "admin" \/ created_by t = user_id current_user ->
   result (delete_ticket ticket_id current_user) w = Returned tt /\
   tickets w' !! ticket_id = None /\
   (forall other, other <> ticket_id -> tickets w' !! other = tickets w !! other) /\
   audit_logs w' = audit_logs w /\ celery_queue w' = celery_queue w /\
   (exists e, result (process_ticket_task caps ticket_id celery_task_id) w' = Raised e) /\
   exec (process_ticket_task caps ticket_id celery_task_id) w' = w').
Proof.
  intros Ht w'. subst w'. unfold exec, result, delete_ticket. run_store. rewrite Ht.
  split.
  - intros Hrole Hown.
    assert (String.eqb (role current_user) "admin" = false) as ->
      by (by apply String.eqb_neq).
    assert (Z.eqb (created_by t) (user_id current_user) = false) as ->
      by (by apply Z.eqb_neq).
    simpl. split; [done | eauto].
  - intros Hauth.
    assert (negb (String.eqb (role current_user) "admin")
            && negb (Z.eqb (created_by t) (user_id current_user)) = false) as ->.
    { destruct Hauth as [-> | ->]; [done|]. rewrite Z.eqb_refl. apply andb_false_r. }
    simpl. split; [done|]. split; [apply lookup_delete_eq|].
    split; [intros other Hne; by rewrite lookup_delete_ne|].
    split; [done|]. split; [done|].
    match goal with |- context [process_ticket_task caps ticket_id celery_task_id ?w0] =>
      destruct (job_for_missing_ticket caps ticket_id celery_task_id w0) as [Hres Hsame];
        [simpl; apply lookup_delete_eq|]
    end.
    unfold result, exec in Hres, Hsame. rewrite Hres, Hsame. split; [eauto | done].
Qed.

Lemma deleted_ticket_is_gone_for_jobs_witness :
  tickets (exec (delete_ticket 1 owner) (world1 (ticket1 PENDING None) [1])) !! 1 = None /\
  celery_queue (exec (delete_ticket 1 owner) (world1 (ticket1 PENDING None) [1])) = [1].
Proof.
  pose proof (deleted_ticket_is_gone_for_jobs 1 owner answering "job-1"
                (world1 (ticket1 PENDING None) [1]) (ticket1 PENDING None)) as H.
  destruct H as [_ Hdel].
  - vm_compute. reflexivity.
  - destruct Hdel as (_ & Hgone & _ & _ & Hq & _).
    + right. reflexivity.
    + split; [exact Hgone | rewrite Hq; reflexivity].
Defined.


(** Reprocessing a ticket and then running the job it enqueued, with a
    handler that returns a result, leaves the ticket COMPLETED with that
    result and without error text, whatever status, error text and payload
    it had before. *)
Theorem reprocess_then_successful_job (caps : Capabilities) (ticket_id : Z)
    (celery_task_id : string) (current_user : User) (w : World) (t : Ticket) (r : dict) :
  tickets w !! ticket_id = Some t ->
  role current_user = "admin" \/ created_by t = user_id current_user ->
  result (dispatch caps (set_status PROCESSING t)) w = Returned r ->
  let queued := exec (reprocess_ticket ticket_id current_user) w in
  let w' := exec (process_ticket_task caps ticket_id celery_task_id) queued in
  celery_queue queued = celery_queue w ++ [ticket_id] /\
  result (process_ticket_task caps ticket_id celery_task_id) queued =
    Returned (job_result ticket_id r) /\
  exists t',
    tickets w' !! ticket_id = Some t' /\
    status t' = COMPLETED /\ error_message t' = None /\ result_data t' = r /\
    completed_at t' = Some (clock w).
Proof.
  intros Ht Hauth Hr queued w'. subst w' queued. unfold exec, result in *.
  rewrite (reprocess_ticket_run ticket_id current_user w t Ht Hauth). cbn [fst snd].
  split; [done|].
  match goal with |- context [process_ticket_task caps ticket_id celery_task_id ?w0] =>
    erewrite (process_ticket_task_run caps ticket_id celery_task_id w0)
      by (simpl; apply lookup_insert_eq);
    unfold result; rewrite (dispatch_run caps _ w0 w)
  end.
  change (set_status PROCESSING
            (set_updated_at (clock w)
               (set_result_data [] (set_error_message None (set_status PENDING t)))))
    with (set_result_data []
            (set_error_message None (set_updated_at (clock w) (set_status PROCESSING t)))).
  assert (forall w0 : World,
    dispatch caps
      (set_result_data []
         (set_error_message None (set_updated_at (clock w) (set_status PROCESSING t)))) w0 =
    dispatch caps (set_status PROCESSING t) w0) as Hsame by done.
  unfold result. rewrite Hsame, Hr. simpl.
  split; [done|]. eexists. rewrite lookup_insert_eq. done.
Qed.

Lemma reprocess_then_successful_job_witness :
  exists t',
    tickets (exec (process_ticket_task answering 1 "job-2")
               (exec (reprocess_ticket 1 owner)
                  (world1 (set_error_message (Some "quota exceeded")
                             (ticket1 FAILED None)) []))) !! 1 = Some t' /\
    status t' = COMPLETED /\ error_message t' = None.
Proof.
  pose proof (reprocess_then_successful_job answering 1 "job-2" owner
                (world1 (set_error_message (Some "quota exceeded")
                           (ticket1 FAILED None)) [])
                (set_error_message (Some "quota exceeded") (ticket1 FAILED None))
                [("task_result", VStr "done"); ("tokens_used", VInt 12);
                 ("model_used", VStr "grok-3")]) as H.
  destruct H as (_ & _ & t' & Ht' & Hst & Herr & _).
  - vm_compute. reflexivity.
  - right. reflexivity.
  - vm_compute. reflexivity.
  - exists t'. split; [exact Ht' | split; [exact Hst | exact Herr]].
Defined.




End ExecMore.
